(** * dchat Python SDK: confirmation tracking and atomic completion

    A shallow embedding of the polling loops of the blockchain package
    ([client.py], [chat_chain.py], [currency_chain.py], [cross_chain.py],
    [transaction.py]) together with the properties of the design document
    that concern them.

    Conventions.
    - The event-loop clock and [time.time()] are an integer number of
      milliseconds; [asyncio.sleep(s)] advances it by [1000 * s].
    - The ledger gateway is an oracle: the [n]-th request issued in a
      session receives [reply n tx_id] and takes [latency n] milliseconds.
      The generic client sends its requests through an [aiohttp] session,
      whose total timeout cuts every request off after five minutes; the
      chain clients and the bridge send theirs through the synchronous
      [httpx.Client()] that their [__init__] builds, whose timeouts bound
      each connect and each read but not the request as a whole.
    - A Python exception is a value of [exn]; a computation that may raise
      returns a [result]. *)

From Stdlib Require Import ZArith String Lia SpecFloat.
From stdpp Require Import base option strings gmap pretty.
From Equations Require Import Equations.

Local Open Scope Z_scope.

(** ** Exceptions and results *)

Inductive exn : Type :=
  | Exception (msg : string)
  | TimeoutError (msg : string)
  | RuntimeError (msg : string)
  | KeyError (key : string)
  | ValueError (msg : string)
  | TypeError (msg : string)
  | ClientError (msg : string)     (* aiohttp.ClientError and subclasses *)
  | HTTPError (msg : string).      (* httpx.HTTPError and subclasses *)

Inductive result (A : Type) : Type :=
  | Return (a : A)
  | Raise (e : exn).
Arguments Return {A} a.
Arguments Raise {A} e.

(** [try: body / except Exception: handler]: every member of [exn] derives
    from [Exception]. *)
Definition try_except {A} (body : result A) (handler : exn -> result A) : result A :=
  match body with
  | Return a => Return a
  | Raise e => handler e
  end.

(** [try: body / except httpx.HTTPError: handler]: other exceptions propagate. *)
Definition is_HTTPError (e : exn) : bool :=
  match e with HTTPError _ => true | _ => false end.

Definition try_except_HTTPError {A} (body : result A) (handler : exn -> result A) : result A :=
  match body with
  | Return a => Return a
  | Raise e => if is_HTTPError e then handler e else Raise e
  end.

#[export] Instance result_ret : MRet result := fun A a => Return a.
#[export] Instance result_bind : MBind result := fun A B k r =>
  match r with
  | Return a => k a
  | Raise e => Raise e
  end.

(** Case analysis that keeps the equation with the scrutinee. *)
Definition inspect {A : Type} (a : A) : { b : A | a = b } := exist _ a eq_refl.

(** ** Decoded JSON

    What [response.json()] hands back: [None], a [bool], an [int], a
    [float], a [str], a [list] or a [dict] with string keys, in the order
    of the document. *)
#[warnings="-register-all"] Inductive PyValue : Type :=
  | PyNone
  | PyBool (b : bool)
  | PyInt (i : Z)
  | PyFloat (f : spec_float)
  | PyStr (s : string)
  | PyList (items : list PyValue)
  | PyDict (items : list (string * PyValue)).

(** The truth value of a Python object, as [if v:] and [v or w] test it:
    [None], [False], zero, and the empty string, list and dict are falsy. *)
Definition truth (v : PyValue) : bool :=
  match v with
  | PyNone => false
  | PyBool b => b
  | PyInt i => negb (i =? 0)
  | PyFloat (S754_zero _) => false
  | PyFloat _ => true
  | PyStr EmptyString => false
  | PyStr _ => true
  | PyList [] => false
  | PyList _ => true
  | PyDict [] => false
  | PyDict _ => true
  end.

(** [isinstance(v, bool)] *)
Definition is_bool (v : PyValue) : bool :=
  match v with PyBool _ => true | _ => false end.

(** Truth value of an [Optional[str]]: [None] and the empty string are falsy. *)
Definition truthy (s : option string) : bool :=
  match s with
  | Some EmptyString => false
  | Some _ => true
  | None => false
  end.

(** [d[key]] on a decoded JSON object: [KeyError] when the key is absent. *)
Definition subscript {A} (key : string) (field : option A) : result A :=
  match field with
  | Some v => Return v
  | None => Raise (KeyError key)
  end.

(** ** The network: clock and request counter *)

Record Net : Type := MkNet {
  clock : Z;       (* milliseconds *)
  sent : nat       (* requests issued so far *)
}.

Record Gateway (R : Type) : Type := MkGateway {
  reply : nat -> string -> R;
  latency : nat -> N
}.
Arguments reply {R} g n tx_id.
Arguments latency {R} g n.

(** Issue one request about [tx_id]: the answer arrives [latency] later. *)
Definition request {R} (g : Gateway R) (tx_id : string) (n : Net) : R * Net :=
  (reply g (sent n) tx_id,
   MkNet (clock n + Z.of_N (latency g (sent n))) (S (sent n))).

Definition sleep (seconds : Z) (n : Net) : Net :=
  MkNet (clock n + 1000 * seconds) (sent n).

(** The state in which the next poll starts, when a request is followed by
    a sleep of [interval] seconds; and the state in which the [j]-th poll
    from [n] starts when every earlier one was followed by that sleep. *)
Definition next_poll {R} (g : Gateway R) (interval : Z) (n : Net) : Net :=
  MkNet (clock n + Z.of_N (latency g (sent n)) + 1000 * interval) (S (sent n)).

Fixpoint nth_poll {R} (g : Gateway R) (interval : Z) (j : nat) (n : Net) : Net :=
  match j with
  | O => n
  | S j' => nth_poll g interval j' (next_poll g interval n)
  end.

(** The first [k] polls from [n] start before the deadline [d] and are all
    idle, [idle s] saying that the answer to request [s] lets the loop go
    on to sleep. *)
Definition quiet_until {R} (g : Gateway R) (interval : Z) (idle : nat -> Prop)
    (d : Z) (n : Net) (k : nat) : Prop :=
  forall i, (i < k)%nat ->
    clock (nth_poll g interval i n) < d /\ idle (sent n + i)%nat.

(** ** transaction.py *)

(** The dataclass does not check its fields: [success] holds whatever the
    ledger sent under that key. *)
Record TransactionReceipt : Type := MkTransactionReceipt {
  tx_id : string;
  tx_hash : string;
  success : PyValue;
  block_height : option Z;
  block_hash : option string;
  timestamp : option Z;
  error : option string
}.

(** ** client.py *)

Module BlockchainClient.

Record BlockchainConfig : Type := MkBlockchainConfig {
  rpc_url : string;
  ws_url : option string;
  confirmation_blocks : Z;
  confirmation_timeout : Z;   (* seconds *)
  max_retries : Z
}.

Definition default_config (url : string) : BlockchainConfig :=
  MkBlockchainConfig url None 6 300 3.

(** The [result] object of an [eth_getTransactionReceipt] answer: each key
    may be absent. *)
Record ReceiptJson : Type := MkReceiptJson {
  j_tx_id : option string;
  j_tx_hash : option string;
  j_success : option PyValue;
  j_block_height : option Z;
  j_block_hash : option string;
  j_timestamp : option string;
  j_error : option string
}.

Inductive JsonBody : Type :=
  | NotJson      (* [response.json()] raises, or reading its value as an
                    object with a ["result"] object raises *)
  | NoResult     (* no ["result"] key, or a falsy value *)
  | Result (r : ReceiptJson).

Inductive RpcReply : Type :=
  | ConnectionFailed (msg : string)          (* [session.post] raises *)
  | TimedOut                                 (* the session's timeout expires *)
  | HttpReply (status : Z) (body : JsonBody).

(** [aiohttp.ClientSession()] is built with the default timeout, a total of
    five minutes per request: a request that has no answer by then is cut
    off with [asyncio.TimeoutError]. *)
Definition total_timeout : N := 300000.

(** The ledger as the session of the client sees it. *)
Definition session (g : Gateway RpcReply) : Gateway RpcReply :=
  MkGateway _
    (fun s tx_id =>
       if (latency g s <? total_timeout)%N then reply g s tx_id else TimedOut)
    (fun s => N.min (latency g s) total_timeout).

Record ClientState : Type := MkClientState {
  _transaction_cache : gmap string TransactionReceipt;
  net : Net
}.

Section Client.

(** [datetime.fromisoformat], as seconds since the epoch; [None] stands
    for the [ValueError] of an unparsable string. *)
Variable fromisoformat : string -> option Z.

Definition parse_timestamp (field : option string) : result (option Z) :=
  match field with
  | None => Return None
  | Some s =>
      match fromisoformat s with
      | Some t => Return (Some t)
      | None => Raise (ValueError s)
      end
  end.

(** The [try] block of [get_transaction_receipt], after the request. *)
Definition receipt_of_reply (r : RpcReply) : result (option TransactionReceipt) :=
  match r with
  | ConnectionFailed msg => Raise (ClientError msg)
  | TimedOut => Raise (TimeoutError "")
  | HttpReply status body =>
      if bool_decide (status ≠ 200) then Return None
      else
        match body with
        | NotJson => Raise (ValueError "json")
        | NoResult => Return None
        | Result res =>
            i ← subscript "tx_id" (j_tx_id res);
            h ← subscript "tx_hash" (j_tx_hash res);
            s ← subscript "success" (j_success res);
            t ← parse_timestamp (j_timestamp res);
            Return (Some (MkTransactionReceipt i h s (j_block_height res)
                            (j_block_hash res) t (j_error res)))
        end
  end.

Definition get_transaction_receipt (g : Gateway RpcReply) (tx : string)
    (st : ClientState) : result (option TransactionReceipt) * ClientState :=
  let '(r, n) := request (session g) tx (net st) in
  (try_except (receipt_of_reply r) (fun _ => Return None),
   MkClientState (_transaction_cache st) n).

(** [return receipt.success if receipt else False]: the field is handed
    back as it is. *)
Definition is_transaction_confirmed (g : Gateway RpcReply) (tx : string)
    (st : ClientState) : result PyValue * ClientState :=
  let '(r, st') := get_transaction_receipt g tx st in
  (try_except
     (receipt ← r;
      Return (match receipt with Some rc => success rc | None => PyBool false end))
     (fun _ => Return (PyBool false)),
   st').

Definition timeout_message (cfg : BlockchainConfig) : string :=
  "Transaction confirmation timed out after "
    +:+ pretty (confirmation_timeout cfg) +:+ "s".

Definition failure_message (rc : TransactionReceipt) : string :=
  "Transaction failed: " +:+ default "None" (error rc).

Definition cache_put (tx : string) (rc : TransactionReceipt) (st : ClientState)
    : ClientState :=
  MkClientState (<[tx := rc]> (_transaction_cache st)) (net st).

Definition client_sleep (seconds : Z) (st : ClientState) : ClientState :=
  MkClientState (_transaction_cache st) (sleep seconds (net st)).

(** The [while] loop of [wait_for_confirmation]. *)
Equations? confirmation_loop (cfg : BlockchainConfig) (g : Gateway RpcReply)
    (tx : string) (deadline : Z) (st : ClientState)
    : result TransactionReceipt * ClientState
    by wf (Z.to_nat (deadline - clock (net st))) lt :=
  confirmation_loop cfg g tx deadline st with Z_lt_dec (clock (net st)) deadline := {
    | right _ => (Raise (TimeoutError (timeout_message cfg)), st)
    | left _ with inspect (get_transaction_receipt g tx st) := {
        | exist _ (Raise e, st1) _ => (Raise e, st1)
        | exist _ (Return None, st1) _ =>
            confirmation_loop cfg g tx deadline (client_sleep 2 st1)
        | exist _ (Return (Some receipt), st1) _ with truth (success receipt) := {
            | true => (Return receipt, cache_put tx receipt st1)
            | false with truthy (error receipt) := {
                | true => (Raise (Exception (failure_message receipt)),
                           cache_put tx receipt st1)
                | false =>
                    confirmation_loop cfg g tx deadline
                      (client_sleep 2 (cache_put tx receipt st1)) } } } }.
Proof. all: lia. Qed.

Definition wait_for_confirmation (cfg : BlockchainConfig) (g : Gateway RpcReply)
    (tx : string) (st : ClientState) : result TransactionReceipt * ClientState :=
  let loop :=
    confirmation_loop cfg g tx
      (clock (net st) + 1000 * confirmation_timeout cfg) st in
  match _transaction_cache st !! tx with
  | Some cached =>
      if truth (success cached) || truthy (error cached) then (Return cached, st)
      else loop
  | None => loop
  end.

(** What [get_transaction_receipt] hands back on the request numbered [s]. *)
Definition receipt_at (g : Gateway RpcReply) (tx : string) (s : nat)
    : result (option TransactionReceipt) :=
  try_except (receipt_of_reply (reply (session g) s tx)) (fun _ => Return None).

(** What one iteration concludes from the fetched receipt: [None] when the
    loop goes on to sleep. *)
Definition verdict (r : result (option TransactionReceipt))
    : option (result TransactionReceipt) :=
  match r with
  | Raise e => Some (Raise e)
  | Return None => None
  | Return (Some receipt) =>
      if truth (success receipt) then Some (Return receipt)
      else if truthy (error receipt)
           then Some (Raise (Exception (failure_message receipt)))
           else None
  end.

(** The cache after an iteration that fetched [r]. *)
Definition cached (tx : string) (r : result (option TransactionReceipt))
    (c : gmap string TransactionReceipt) : gmap string TransactionReceipt :=
  match r with
  | Return (Some receipt) => <[tx := receipt]> c
  | _ => c
  end.

(** The cache at the start of the [k]-th poll, when the polls are numbered
    from request [s] on and none of the earlier ones ended the loop. *)
Fixpoint cache_after (g : Gateway RpcReply) (tx : string) (k s : nat)
    (c : gmap string TransactionReceipt) : gmap string TransactionReceipt :=
  match k with
  | O => c
  | S k' => cache_after g tx k' (S s) (cached tx (receipt_at g tx s) c)
  end.

(** A fetch that shows no terminal receipt: nothing fetched, or a receipt
    with a falsy [success] and a falsy [error]. *)
Definition pending (r : result (option TransactionReceipt)) : Prop :=
  match r with
  | Return None => True
  | Return (Some receipt) =>
      truth (success receipt) = false /\ truthy (error receipt) = false
  | Raise _ => False
  end.

(** The cache holds no terminal receipt for [tx]: the cache-first return of
    [wait_for_confirmation] is not taken. *)
Definition no_terminal_cached (tx : string) (st : ClientState) : Prop :=
  match _transaction_cache st !! tx with
  | Some c => truth (success c) = false /\ truthy (error c) = false
  | None => True
  end.

(** The data-model invariant of a receipt. *)
Definition exclusive (receipt : TransactionReceipt) : Prop :=
  ~ (success receipt = PyBool true /\ error receipt <> None).

(** A reply that carries no receipt because of the transport: the request
    raised or was cut off, or the status is not 200 (404 included). *)
Definition transient (r : RpcReply) : Prop :=
  match r with
  | ConnectionFailed _ => True
  | TimedOut => True
  | HttpReply status _ => status <> 200
  end.

End Client.

End BlockchainClient.

(** ** REST endpoints of the chain clients and of the bridge *)

(** What [response.json()] followed by the dataclass constructor would
    yield. *)
Inductive Payload (T : Type) : Type :=
  | BadJson                 (* [response.json()] raises a [ValueError] *)
  | BadFields               (* the constructor rejects the keys: [TypeError] *)
  | Decoded (v : T).
Arguments BadJson {T}.
Arguments BadFields {T}.
Arguments Decoded {T} v.

Inductive RestReply (T : Type) : Type :=
  | RequestFailed (msg : string)            (* [client.get] raises an [httpx.HTTPError] *)
  | Response (status_code : Z) (payload : Payload T).
Arguments RequestFailed {T} msg.
Arguments Response {T} status_code payload.

(** [response.raise_for_status()] *)
Definition raise_for_status (status_code : Z) : result unit :=
  if (200 <=? status_code) && (status_code <? 300) then Return tt
  else Raise (HTTPError "status").

Definition decode {T} (p : Payload T) : result T :=
  match p with
  | BadJson => Raise (ValueError "json")
  | BadFields => Raise (TypeError "fields")
  | Decoded v => Return v
  end.

(** [self.client] is the [httpx.Client()] of [__init__], the synchronous
    client: [self.client.get(...)] blocks until the request is over, raises
    an [httpx.HTTPError] when it failed and hands back the [Response]
    otherwise. *)
Definition client_get {T} (r : RestReply T) : result (Z * Payload T) :=
  match r with
  | RequestFailed msg => Raise (HTTPError msg)
  | Response status_code payload => Return (status_code, payload)
  end.

(** [await response]: a [Response] is no awaitable. *)
Definition not_awaitable : exn :=
  TypeError "object Response can't be used in 'await' expression".

Definition await_response {A} (response : A) : result A := Raise not_awaitable.

(** The [try] block shared, word for word, by [ChatChainClient.get_transaction],
    [CurrencyChainClient.get_transaction] and [CrossChainBridge.get_status],
    with its [except httpx.HTTPError: return None]. *)
Definition optional_of_reply {T} (r : RestReply T) : result (option T) :=
  try_except_HTTPError
    (handed_back ← client_get r;
     response ← await_response handed_back;
     let '(status_code, payload) := response in
     if status_code =? 404 then Return None
     else
       _ ← raise_for_status status_code;
       v ← decode payload;
       Return (Some v))
    (fun _ => Return None).

Definition get_optional {T} (g : Gateway (RestReply T)) (tx : string) (n : Net)
    : result (option T) * Net :=
  let '(r, n') := request g tx n in (optional_of_reply r, n').

(** What [get_optional] hands back on the request numbered [s]. *)
Definition answer_at {T} (g : Gateway (RestReply T)) (tx : string) (s : nat)
    : result (option T) :=
  optional_of_reply (reply g s tx).

(** A request that got no answer: it raised an [httpx.HTTPError]. *)
Definition unanswered {T} (r : RestReply T) : Prop :=
  match r with
  | RequestFailed _ => True
  | Response _ _ => False
  end.

(** ** chat_chain.py, currency_chain.py *)

(** Both ledgers report a confirmation count. *)
Class ChainTransaction (T : Type) := confirmations_of : T -> Z.

Module ChainClient.
Section Chain.

Context {T : Type} `{ChainTransaction T}.

Definition get_transaction (g : Gateway (RestReply T)) (tx : string) (n : Net)
    : result (option T) * Net :=
  get_optional g tx n.

Definition timeout_message (tx : string) (max_wait_ms : Z) : string :=
  "Transaction " +:+ tx +:+ " did not confirm within "
    +:+ pretty max_wait_ms +:+ "ms".

(** The [while] loop of [wait_for_confirmation]. *)
Equations? confirmation_loop (g : Gateway (RestReply T)) (tx : string)
    (confirmations max_wait_ms start_time : Z) (n : Net) : result T * Net
    by wf (Z.to_nat (start_time + max_wait_ms - clock n)) lt :=
  confirmation_loop g tx confirmations max_wait_ms start_time n
    with Z_lt_dec (clock n - start_time) max_wait_ms := {
    | right _ => (Raise (TimeoutError (timeout_message tx max_wait_ms)), n)
    | left _ with inspect (get_transaction g tx n) := {
        | exist _ (Raise e, n1) _ => (Raise e, n1)
        | exist _ (Return None, n1) _ =>
            confirmation_loop g tx confirmations max_wait_ms start_time (sleep 1 n1)
        | exist _ (Return (Some t), n1) _
            with Z_le_dec confirmations (confirmations_of t) := {
            | left _ => (Return t, n1)
            | right _ =>
                confirmation_loop g tx confirmations max_wait_ms start_time
                  (sleep 1 n1) } } }.
Proof. all: lia. Qed.

Definition wait_for_confirmation (g : Gateway (RestReply T)) (tx : string)
    (confirmations max_wait_ms : Z) (n : Net) : result T * Net :=
  confirmation_loop g tx confirmations max_wait_ms (clock n) n.

(** Default arguments: [confirmations = 6], [max_wait_ms = 30000]. *)
Definition default_confirmations : Z := 6.
Definition default_max_wait_ms : Z := 30000.

(** What one iteration concludes from the answer of [get_transaction]:
    [None] when the loop goes on to sleep. *)
Definition verdict (confirmations : Z) (r : result (option T)) : option (result T) :=
  match r with
  | Raise e => Some (Raise e)
  | Return None => None
  | Return (Some t) =>
      if Z_le_dec confirmations (confirmations_of t) then Some (Return t) else None
  end.

(** An answer that shows no confirmed transaction: no record, or a record
    with fewer confirmations than required. *)
Definition unconfirmed (confirmations : Z) (r : result (option T)) : Prop :=
  match r with
  | Return None => True
  | Return (Some t) => confirmations_of t < confirmations
  | Raise _ => False
  end.

End Chain.
End ChainClient.

Module ChatChain.

Record ChatChainTransaction : Type := MkChatChainTransaction {
  id : string;
  tx_type : string;
  sender : string;
  data : gmap string string;
  status : string;
  confirmations : Z;
  block_height : Z;
  created_at : Z
}.

#[export] Instance chain_transaction : ChainTransaction ChatChainTransaction :=
  confirmations.

Definition get_transaction := ChainClient.get_transaction (T := ChatChainTransaction).
Definition wait_for_confirmation :=
  ChainClient.wait_for_confirmation (T := ChatChainTransaction).

End ChatChain.

Module CurrencyChain.

Record CurrencyChainTransaction : Type := MkCurrencyChainTransaction {
  id : string;
  tx_type : string;
  from_user : option string;
  to_user : option string;
  amount : Z;
  status : string;
  confirmations : Z;
  block_height : Z;
  created_at : Z
}.

#[export] Instance chain_transaction : ChainTransaction CurrencyChainTransaction :=
  confirmations.

Definition get_transaction :=
  ChainClient.get_transaction (T := CurrencyChainTransaction).
Definition wait_for_confirmation :=
  ChainClient.wait_for_confirmation (T := CurrencyChainTransaction).

End CurrencyChain.

(** ** cross_chain.py *)

Module CrossChainBridge.

Inductive CrossChainStatus : Type :=
  | PENDING
  | CHAT_CHAIN_CONFIRMED
  | CURRENCY_CHAIN_CONFIRMED
  | ATOMIC_SUCCESS
  | ROLLED_BACK
  | FAILED.

Definition value (s : CrossChainStatus) : string :=
  match s with
  | PENDING => "pending"
  | CHAT_CHAIN_CONFIRMED => "chat_chain_confirmed"
  | CURRENCY_CHAIN_CONFIRMED => "currency_chain_confirmed"
  | ATOMIC_SUCCESS => "atomic_success"
  | ROLLED_BACK => "rolled_back"
  | FAILED => "failed"
  end.

Record CrossChainTransaction : Type := MkCrossChainTransaction {
  id : string;
  operation : string;
  user_id : string;
  chat_chain_tx : option string;
  currency_chain_tx : option string;
  status : string;
  created_at : Z;
  finalized_at : option Z
}.

Definition get_status (g : Gateway (RestReply CrossChainTransaction))
    (bridge_tx_id : string) (n : Net) : result (option CrossChainTransaction) * Net :=
  get_optional g bridge_tx_id n.

Definition failure_message (bridge_tx_id : string) (tx : CrossChainTransaction)
    : string :=
  "Cross-chain transaction " +:+ bridge_tx_id +:+ " failed with status: "
    +:+ status tx.

Definition timeout_message (bridge_tx_id : string) (max_wait_ms : Z) : string :=
  "Cross-chain transaction " +:+ bridge_tx_id +:+ " did not complete within "
    +:+ pretty max_wait_ms +:+ "ms".

(** [tx.status == ATOMIC_SUCCESS.value] *)
Definition is_success (tx : CrossChainTransaction) : bool :=
  bool_decide (status tx = value ATOMIC_SUCCESS).

(** [tx.status in [FAILED.value, ROLLED_BACK.value]] *)
Definition is_failure (tx : CrossChainTransaction) : bool :=
  bool_decide (status tx = value FAILED) || bool_decide (status tx = value ROLLED_BACK).

(** The [while] loop of [wait_for_atomic_completion]. *)
Equations? completion_loop (g : Gateway (RestReply CrossChainTransaction))
    (bridge_tx_id : string) (max_wait_ms start_time : Z) (n : Net)
    : result CrossChainTransaction * Net
    by wf (Z.to_nat (start_time + max_wait_ms - clock n)) lt :=
  completion_loop g bridge_tx_id max_wait_ms start_time n
    with Z_lt_dec (clock n - start_time) max_wait_ms := {
    | right _ => (Raise (TimeoutError (timeout_message bridge_tx_id max_wait_ms)), n)
    | left _ with inspect (get_status g bridge_tx_id n) := {
        | exist _ (Raise e, n1) _ => (Raise e, n1)
        | exist _ (Return None, n1) _ =>
            completion_loop g bridge_tx_id max_wait_ms start_time (sleep 1 n1)
        | exist _ (Return (Some tx), n1) _ with is_success tx := {
            | true => (Return tx, n1)
            | false with is_failure tx := {
                | true => (Raise (RuntimeError (failure_message bridge_tx_id tx)), n1)
                | false =>
                    completion_loop g bridge_tx_id max_wait_ms start_time
                      (sleep 1 n1) } } } }.
Proof. all: lia. Qed.

Definition wait_for_atomic_completion (g : Gateway (RestReply CrossChainTransaction))
    (bridge_tx_id : string) (max_wait_ms : Z) (n : Net)
    : result CrossChainTransaction * Net :=
  completion_loop g bridge_tx_id max_wait_ms (clock n) n.

Definition default_max_wait_ms : Z := 60000.

(** What one iteration concludes from the answer of [get_status]:
    [None] when the loop goes on to sleep. *)
Definition verdict (bridge_tx_id : string)
    (r : result (option CrossChainTransaction))
    : option (result CrossChainTransaction) :=
  match r with
  | Raise e => Some (Raise e)
  | Return None => None
  | Return (Some tx) =>
      if is_success tx then Some (Return tx)
      else if is_failure tx
           then Some (Raise (RuntimeError (failure_message bridge_tx_id tx)))
           else None
  end.

(** An answer that is neither a terminal status nor an exception: no
    record yet, or a record whose status is none of [atomic_success],
    [failed], [rolled_back]. *)
Definition inconclusive (r : result (option CrossChainTransaction)) : Prop :=
  match r with
  | Return None => True
  | Return (Some tx) =>
      status tx <> value ATOMIC_SUCCESS
      /\ status tx <> value FAILED /\ status tx <> value ROLLED_BACK
  | Raise _ => False
  end.

End CrossChainBridge.

(** ** Ledgers and sessions used in the examples *)

Module Scenarios.
Import BlockchainClient.

(** A ledger that answers every request with [r], after [lat] ms. *)
Definition steady {R} (r : R) (lat : N) : Gateway R :=
  MkGateway _ (fun _ _ => r) (fun _ => lat).

(** A ledger that follows a script, then answers "not found"; no latency. *)
Definition scripted (replies : list RpcReply) : Gateway RpcReply :=
  MkGateway _ (fun n _ => default (HttpReply 404 NoResult) (replies !! n))
    (fun _ => 0%N).

(** An ISO-8601 parser that rejects every string; the examples carry no
    timestamp. *)
Definition no_timestamps : string -> option Z := fun _ => None.

Definition receipt_json (ok : bool) (height : option Z) (err : option string)
    : ReceiptJson :=
  MkReceiptJson (Some "u1") (Some "0xabc") (Some (PyBool ok)) height None None err.

Definition receipt (ok : bool) (height : option Z) (err : option string)
    : TransactionReceipt :=
  MkTransactionReceipt "u1" "0xabc" (PyBool ok) height None None err.

Definition not_found : RpcReply := HttpReply 404 NoResult.
Definition pending_reply : RpcReply :=
  HttpReply 200 (Result (receipt_json false None None)).
Definition confirmed_reply : RpcReply :=
  HttpReply 200 (Result (receipt_json true (Some 10) None)).
Definition failed_reply : RpcReply :=
  HttpReply 200 (Result (receipt_json false None (Some "boom"))).
Definition contradictory_reply : RpcReply :=
  HttpReply 200 (Result (receipt_json true (Some 10) (Some "boom"))).

Definition local : BlockchainConfig := default_config "http://localhost:8545".
Definition impatient : BlockchainConfig :=
  MkBlockchainConfig "http://localhost:8545" None 6 5 3.

(** A fresh session: empty cache, clock at 0, nothing sent. *)
Definition fresh : ClientState := MkClientState ∅ (MkNet 0 0).


End Scenarios.

(** ** Views used by the further properties *)

Module ClientViews.
Import BlockchainClient.

Section Views.

Variable fromisoformat : string -> option Z.

(** What it takes for a receipt to be built from an answer: status 200, a
    result object with [tx_id], [tx_hash] and [success], and a timestamp
    that is absent or parses. *)
Definition well_formed_answer (r : RpcReply) (rc : TransactionReceipt) : Prop :=
  exists res t,
    r = HttpReply 200 (Result res)
    /\ j_tx_id res = Some (tx_id rc)
    /\ j_tx_hash res = Some (tx_hash rc)
    /\ j_success res = Some (success rc)
    /\ parse_timestamp fromisoformat (j_timestamp res) = Return t
    /\ rc = MkTransactionReceipt (tx_id rc) (tx_hash rc) (success rc)
              (j_block_height res) (j_block_hash res) t (j_error res).

End Views.

End ClientViews.

(** ** tests/python/integration_test.py: the mock ledger *)

Module MockBlockchain.

Inductive TransactionType : Type :=
  | REGISTER_USER
  | SEND_DIRECT_MESSAGE
  | CREATE_CHANNEL
  | POST_TO_CHANNEL
  | VOTE_ON_GOVERNANCE.

Inductive TransactionStatus : Type :=
  | PENDING
  | CONFIRMED
  | FAILED.

#[export] Instance TransactionType_eq_dec : EqDecision TransactionType.
Proof. solve_decision. Defined.

#[export] Instance TransactionStatus_eq_dec : EqDecision TransactionStatus.
Proof. solve_decision. Defined.

Record Transaction : Type := MkTransaction {
  tx_id : string;
  tx_type : TransactionType;
  sender : string;
  data : gmap string string;
  timestamp : string;
  status : TransactionStatus;
  confirmations : Z;
  block_height : Z
}.

(** A Python [dict] keeps its keys in insertion order: an association list
    without repeated keys. [d[k] = v] replaces the value of a known key in
    place and appends an unknown one. *)
Fixpoint dict_set {V} (k : string) (v : V) (d : list (string * V))
    : list (string * V) :=
  match d with
  | [] => [(k, v)]
  | (k', v') :: d' =>
      if decide (k = k') then (k, v) :: d' else (k', v') :: dict_set k v d'
  end.

Fixpoint dict_get {V} (k : string) (d : list (string * V)) : option V :=
  match d with
  | [] => None
  | (k', v') :: d' => if decide (k = k') then Some v' else dict_get k d'
  end.

Definition values {V} (d : list (string * V)) : list V := d.*2.

Record MockBlockchainPython : Type := MkMockBlockchainPython {
  transactions : list (string * Transaction);
  current_block : Z;
  confirmation_threshold : Z
}.

(** [__init__], whose [confirmation_threshold] defaults to 6. *)
Definition init (confirmation_threshold : Z) : MockBlockchainPython :=
  MkMockBlockchainPython [] 1 confirmation_threshold.

Definition default_confirmation_threshold : Z := 6.

(** [submit_transaction]; [uuid] is the value of [str(uuid.uuid4())]. *)
Definition submit_transaction (uuid : string) (ty : TransactionType)
    (sender : string) (data : gmap string string) (bc : MockBlockchainPython)
    : string * MockBlockchainPython :=
  let tx :=
    MkTransaction uuid ty sender data "2025-10-29T10:00:00Z" CONFIRMED
      (confirmation_threshold bc) (current_block bc) in
  (uuid,
   MkMockBlockchainPython (dict_set uuid tx (transactions bc))
     (current_block bc) (confirmation_threshold bc)).

Definition get_transaction (tx_id : string) (bc : MockBlockchainPython)
    : option Transaction :=
  dict_get tx_id (transactions bc).

Definition get_all_transactions (bc : MockBlockchainPython) : list Transaction :=
  values (transactions bc).

Definition get_transactions_by_type (ty : TransactionType)
    (bc : MockBlockchainPython) : list Transaction :=
  filter (fun tx => tx_type tx = ty) (values (transactions bc)).

Definition get_transactions_by_sender (s : string) (bc : MockBlockchainPython)
    : list Transaction :=
  filter (fun tx => sender tx = s) (values (transactions bc)).

(** The body of the [for] loop of [advance_blocks]. *)
Definition confirm_more (count : Z) (tx : Transaction) : Transaction :=
  if decide (status tx = CONFIRMED)
  then MkTransaction (tx_id tx) (tx_type tx) (sender tx) (data tx) (timestamp tx)
         (status tx) (confirmations tx + count) (block_height tx)
  else tx.

Definition advance_blocks (count : Z) (bc : MockBlockchainPython)
    : MockBlockchainPython :=
  MkMockBlockchainPython
    (prod_map id (confirm_more count) <$> transactions bc)
    (current_block bc + count) (confirmation_threshold bc).

Definition get_current_block (bc : MockBlockchainPython) : Z := current_block bc.

Definition reset (bc : MockBlockchainPython) : MockBlockchainPython :=
  MkMockBlockchainPython [] 1 (confirmation_threshold bc).

End MockBlockchain.

(** ** crypto/keypair.py: hexadecimal strings *)

Module Hex.
Import Stdlib.Strings.Ascii.

(** The digit of a value below 16, as [bytes.hex()] writes it. *)
Definition hex_digit (n : N) : ascii :=
  match n with
  | 0 => "0" | 1 => "1" | 2 => "2" | 3 => "3" | 4 => "4" | 5 => "5" | 6 => "6"
  | 7 => "7" | 8 => "8" | 9 => "9" | 10 => "a" | 11 => "b" | 12 => "c"
  | 13 => "d" | 14 => "e" | _ => "f"
  end%N%char.

(** [bytes.hex()]: two lowercase digits per byte. *)
Fixpoint hex (bs : list Byte.byte) : string :=
  match bs with
  | [] => ""
  | b :: bs' =>
      String (hex_digit (Byte.to_N b / 16))
        (String (hex_digit (Byte.to_N b mod 16)) (hex bs'))
  end.

(** The value of a digit, in either case, as [bytes.fromhex] reads it. *)
Definition hex_value (c : ascii) : option N :=
  let n := N_of_ascii c in
  if (48 <=? n)%N && (n <=? 57)%N then Some (n - 48)%N
  else if (97 <=? n)%N && (n <=? 102)%N then Some (n - 87)%N
  else if (65 <=? n)%N && (n <=? 70)%N then Some (n - 55)%N
  else None.

(** ASCII white space: space, and the characters 9 to 13. *)
Definition is_space (c : ascii) : bool :=
  let n := N_of_ascii c in
  (n =? 32)%N || ((9 <=? n)%N && (n <=? 13)%N).

Definition byte_of_digits (hi lo : N) : Byte.byte :=
  default Byte.x00 (Byte.of_N (16 * hi + lo)).

(** [bytes.fromhex]: white space is skipped between bytes; each byte is two
    digits; anything else is a [ValueError]. *)
Fixpoint fromhex (s : string) : result (list Byte.byte) :=
  match s with
  | EmptyString => Return []
  | String c rest =>
      if is_space c then fromhex rest
      else
        match hex_value c, rest with
        | Some hi, String c' rest' =>
            match hex_value c' with
            | Some lo =>
                bs ← fromhex rest';
                Return (byte_of_digits hi lo :: bs)
            | None => Raise (ValueError "non-hexadecimal number found in fromhex() arg")
            end
        | _, _ => Raise (ValueError "non-hexadecimal number found in fromhex() arg")
        end
  end.

Definition bytes_to_hex (data : list Byte.byte) : string := hex data.
Definition hex_to_bytes (hex_str : string) : result (list Byte.byte) := fromhex hex_str.

Record KeyPair : Type := MkKeyPair {
  public_key : list Byte.byte;
  private_key : list Byte.byte
}.

Definition public_key_hex (kp : KeyPair) : string := hex (public_key kp).
Definition private_key_hex (kp : KeyPair) : string := hex (private_key kp).

Definition to_dict (kp : KeyPair) : gmap string string :=
  {[ "public_key" := public_key_hex kp; "private_key" := private_key_hex kp ]}.

Definition from_dict (data : gmap string string) : result KeyPair :=
  pub_hex ← subscript "public_key" (data !! "public_key");
  pub ← fromhex pub_hex;
  priv_hex ← subscript "private_key" (data !! "private_key");
  priv ← fromhex priv_hex;
  Return (MkKeyPair pub priv).

End Hex.

(** ** transaction.py: the wire form of the transactions *)

Module Transactions.

(** The values of the JSON objects that are sent. *)
Inductive JsonValue : Type :=
  | JNull
  | JInt (z : Z)
  | JStr (s : string).

#[export] Instance JsonValue_eq_dec : EqDecision JsonValue.
Proof. solve_decision. Defined.

Inductive ChannelVisibility : Type :=
  | PUBLIC
  | PRIVATE
  | TOKEN_GATED.

Definition value (v : ChannelVisibility) : string :=
  match v with
  | PUBLIC => "Public"
  | PRIVATE => "Private"
  | TOKEN_GATED => "TokenGated"
  end.

(** A [datetime] is the clock reading it was taken at. *)
Record RegisterUserTx : Type := MkRegisterUserTx {
  ru_user_id : string;
  ru_username : string;
  ru_public_key : string;
  ru_timestamp : Z;
  ru_initial_reputation : Z
}.

Record SendDirectMessageTx : Type := MkSendDirectMessageTx {
  dm_message_id : string;
  dm_sender_id : string;
  dm_recipient_id : string;
  dm_content_hash : string;
  dm_payload_size : Z;
  dm_timestamp : Z;
  dm_relay_node_id : option string
}.

Record CreateChannelTx : Type := MkCreateChannelTx {
  cc_channel_id : string;
  cc_name : string;
  cc_description : string;
  cc_creator_id : string;
  cc_visibility : ChannelVisibility;
  cc_timestamp : Z;
  cc_token_requirement : option string
}.

Record PostToChannelTx : Type := MkPostToChannelTx {
  pc_message_id : string;
  pc_channel_id : string;
  pc_sender_id : string;
  pc_content_hash : string;
  pc_payload_size : Z;
  pc_timestamp : Z
}.

(** [initial_reputation: int = 100] *)
Definition default_initial_reputation : Z := 100.

Section ToDict.

(** [datetime.isoformat] *)
Variable isoformat : Z -> string.

Definition RegisterUserTx_to_dict (tx : RegisterUserTx) : gmap string JsonValue :=
  {[ "user_id" := JStr (ru_user_id tx);
     "username" := JStr (ru_username tx);
     "public_key" := JStr (ru_public_key tx);
     "timestamp" := JStr (isoformat (ru_timestamp tx));
     "initial_reputation" := JInt (ru_initial_reputation tx) ]}.

Definition SendDirectMessageTx_to_dict (tx : SendDirectMessageTx)
    : gmap string JsonValue :=
  let data : gmap string JsonValue :=
    {[ "message_id" := JStr (dm_message_id tx);
       "sender_id" := JStr (dm_sender_id tx);
       "recipient_id" := JStr (dm_recipient_id tx);
       "content_hash" := JStr (dm_content_hash tx);
       "payload_size" := JInt (dm_payload_size tx);
       "timestamp" := JStr (isoformat (dm_timestamp tx)) ]} in
  if truthy (dm_relay_node_id tx)
  then <["relay_node_id" := JStr (default "" (dm_relay_node_id tx))]> data
  else data.

Definition CreateChannelTx_to_dict (tx : CreateChannelTx) : gmap string JsonValue :=
  let data : gmap string JsonValue :=
    {[ "channel_id" := JStr (cc_channel_id tx);
       "name" := JStr (cc_name tx);
       "description" := JStr (cc_description tx);
       "creator_id" := JStr (cc_creator_id tx);
       "visibility" := JStr (value (cc_visibility tx));
       "timestamp" := JStr (isoformat (cc_timestamp tx)) ]} in
  if truthy (cc_token_requirement tx)
  then <["token_requirement" := JStr (default "" (cc_token_requirement tx))]> data
  else data.

Definition PostToChannelTx_to_dict (tx : PostToChannelTx) : gmap string JsonValue :=
  {[ "message_id" := JStr (pc_message_id tx);
     "channel_id" := JStr (pc_channel_id tx);
     "sender_id" := JStr (pc_sender_id tx);
     "content_hash" := JStr (pc_content_hash tx);
     "payload_size" := JInt (pc_payload_size tx);
     "timestamp" := JStr (isoformat (pc_timestamp tx)) ]}.

End ToDict.

End Transactions.

(** ** client.py: submission *)

Module Submission.
Import BlockchainClient Transactions.

(** The body of the answer to a submission: whether it has an ["error"]
    key, and its [message] when it has one; whether it has a ["result"]
    key, and its [tx_id] when it has one. *)
Inductive SubmitBody : Type :=
  | SubmitNotJson
  | SubmitJson (err : option (option string)) (res : option (option string)).

Inductive SubmitReply : Type :=
  | SubmitFailed (msg : string)                (* [session.post] raises *)
  | SubmitTimedOut                             (* the session's timeout expires *)
  | SubmitHttp (status : Z) (body : SubmitBody).

(** The ledger as it answers submissions: the answer to the [n]-th request
    of the session may depend on the method and on the parameters sent. *)
Record SubmitGateway : Type := MkSubmitGateway {
  submitted : nat -> string -> gmap string JsonValue -> SubmitReply;
  submit_latency : nat -> N
}.

(** The ledger as the session of the client sees it: a submission goes
    through the same kind of session as a receipt request and is cut off
    by the same total timeout. *)
Definition submit_session (sg : SubmitGateway) : SubmitGateway :=
  MkSubmitGateway
    (fun s method params =>
       if (submit_latency sg s <? total_timeout)%N then submitted sg s method params
       else SubmitTimedOut)
    (fun s => N.min (submit_latency sg s) total_timeout).

(** What [_submit_transaction] makes of the answer; no [except] clause. *)
Definition tx_id_of_reply (r : SubmitReply) : result string :=
  match r with
  | SubmitFailed msg => Raise (ClientError msg)
  | SubmitTimedOut => Raise (TimeoutError "")
  | SubmitHttp status body =>
      if bool_decide (status ≠ 200)
      then Raise (Exception ("Failed to submit transaction: " +:+ pretty status))
      else
        match body with
        | SubmitNotJson => Raise (ValueError "json")
        | SubmitJson (Some err) _ =>
            message ← subscript "message" err;
            Raise (Exception ("RPC error: " +:+ message))
        | SubmitJson None res =>
            result ← subscript "result" res;
            subscript "tx_id" result
        end
  end.

Definition _submit_transaction (sg : SubmitGateway) (method : string)
    (params : gmap string JsonValue) (st : ClientState)
    : result string * ClientState :=
  let n := net st in
  let seen := submit_session sg in
  (tx_id_of_reply (submitted seen (sent n) ("dchat_" +:+ method) params),
   MkClientState (_transaction_cache st)
     (MkNet (clock n + Z.of_N (submit_latency seen (sent n))) (S (sent n)))).

Section Facade.

Variable isoformat : Z -> string.
Variable sg : SubmitGateway.

(** [datetime.now(timezone.utc)] *)
Definition now (st : ClientState) : Z := clock (net st).

Definition register_user (user_id username public_key : string)
    (st : ClientState) : result string * ClientState :=
  let tx := MkRegisterUserTx user_id username public_key (now st)
              default_initial_reputation in
  _submit_transaction sg "register_user" (RegisterUserTx_to_dict isoformat tx) st.

Definition send_direct_message (message_id sender_id recipient_id content_hash : string)
    (payload_size : Z) (relay_node_id : option string)
    (st : ClientState) : result string * ClientState :=
  let tx := MkSendDirectMessageTx message_id sender_id recipient_id content_hash
              payload_size (now st) relay_node_id in
  _submit_transaction sg "send_direct_message"
    (SendDirectMessageTx_to_dict isoformat tx) st.

Definition create_channel (channel_id name description creator_id : string)
    (visibility : ChannelVisibility) (token_requirement : option string)
    (st : ClientState) : result string * ClientState :=
  let tx := MkCreateChannelTx channel_id name description creator_id visibility
              (now st) token_requirement in
  _submit_transaction sg "create_channel" (CreateChannelTx_to_dict isoformat tx) st.

Definition post_to_channel (message_id channel_id sender_id content_hash : string)
    (payload_size : Z) (st : ClientState) : result string * ClientState :=
  let tx := MkPostToChannelTx message_id channel_id sender_id content_hash
              payload_size (now st) in
  _submit_transaction sg "post_to_channel" (PostToChannelTx_to_dict isoformat tx) st.

End Facade.

End Submission.

(** ** user/models.py, user/manager.py *)

Module UserManager.
Import BlockchainClient Transactions Hex.

Record CreateUserResponse : Type := MkCreateUserResponse {
  cu_user_id : string;
  cu_username : string;
  cu_public_key : string;
  cu_private_key : string;
  cu_created_at : string;
  cu_on_chain_confirmed : PyValue;
  cu_tx_id : option string
}.

Record DirectMessageResponse : Type := MkDirectMessageResponse {
  dr_message_id : string;
  dr_sender_id : string;
  dr_recipient_id : string;
  dr_content_hash : string;
  dr_created_at : string;
  dr_on_chain_confirmed : PyValue;
  dr_tx_id : option string
}.

Record CreateChannelResponse : Type := MkCreateChannelResponse {
  cr_channel_id : string;
  cr_name : string;
  cr_creator_id : string;
  cr_created_at : string;
  cr_on_chain_confirmed : PyValue;
  cr_description : option string;
  cr_tx_id : option string
}.

(** A step in a session: it returns a value or raises, and leaves a state. *)
Definition and_then {A B} (step : result A * ClientState)
    (k : A -> ClientState -> result B * ClientState) : result B * ClientState :=
  match step with
  | (Return a, st) => k a st
  | (Raise e, st) => (Raise e, st)
  end.

Section Manager.

Variable fromisoformat : string -> option Z.
Variable isoformat : Z -> string.
(** [hash_content]: the SHA-256 digest of the content, in hexadecimal. *)
Variable hash_content : string -> string.
Variable cfg : BlockchainConfig.
Variable sg : Submission.SubmitGateway.
Variable g : Gateway RpcReply.

Local Abbreviation wait := (wait_for_confirmation fromisoformat cfg g).

(** [len(content)]: the number of code points of the string. A string is
    held as its UTF-8 bytes, of which those in [0x80..0xBF] continue a code
    point and every other one starts a new one. *)
Definition continues_code_point (c : Ascii.ascii) : bool :=
  let b := Ascii.N_of_ascii c in (128 <=? b)%N && (b <=? 191)%N.

Fixpoint code_points (s : string) : nat :=
  match s with
  | EmptyString => O
  | String c rest =>
      if continues_code_point c then code_points rest else S (code_points rest)
  end.

Definition len (content : string) : Z := Z.of_nat (code_points content).

(** [create_user]; [uuid] is the value of [str(uuid.uuid4())] and [keypair]
    that of [KeyPair.generate()]. *)
Definition create_user (uuid : string) (keypair : KeyPair) (username : string)
    (st : ClientState) : result CreateUserResponse * ClientState :=
  and_then
    (Submission.register_user isoformat sg uuid username (public_key_hex keypair) st)
    (fun tx_id st1 =>
       and_then (wait tx_id st1)
         (fun receipt st2 =>
            (Return (MkCreateUserResponse uuid username (public_key_hex keypair)
                       (private_key_hex keypair) (isoformat (Submission.now st2))
                       (success receipt) (Some tx_id)),
             st2))).

Definition send_direct_message (uuid : string) (sender_id recipient_id content : string)
    (relay_node_id : option string) (st : ClientState)
    : result DirectMessageResponse * ClientState :=
  let content_hash := hash_content content in
  and_then
    (Submission.send_direct_message isoformat sg uuid sender_id recipient_id
       content_hash (len content) relay_node_id st)
    (fun tx_id st1 =>
       and_then (wait tx_id st1)
         (fun receipt st2 =>
            (Return (MkDirectMessageResponse uuid sender_id recipient_id content_hash
                       (isoformat (Submission.now st2)) (success receipt)
                       (Some tx_id)),
             st2))).

Definition create_channel (uuid : string) (creator_id channel_name : string)
    (description : option string) (st : ClientState)
    : result CreateChannelResponse * ClientState :=
  and_then
    (Submission.create_channel isoformat sg uuid channel_name
       (if truthy description then default "" description else "")
       creator_id PUBLIC None st)
    (fun tx_id st1 =>
       and_then (wait tx_id st1)
         (fun receipt st2 =>
            (Return (MkCreateChannelResponse uuid channel_name creator_id
                       (isoformat (Submission.now st2)) (success receipt)
                       description (Some tx_id)),
             st2))).

Definition post_to_channel (uuid : string) (sender_id channel_id content : string)
    (st : ClientState) : result DirectMessageResponse * ClientState :=
  let content_hash := hash_content content in
  and_then
    (Submission.post_to_channel isoformat sg uuid channel_id sender_id
       content_hash (len content) st)
    (fun tx_id st1 =>
       and_then (wait tx_id st1)
         (fun receipt st2 =>
            (Return (MkDirectMessageResponse uuid sender_id channel_id content_hash
                       (isoformat (Submission.now st2)) (success receipt)
                       (Some tx_id)),
             st2))).

End Manager.

End UserManager.

(** ** Ledgers used in the examples of the user manager *)

Module ManagerScenarios.
Import BlockchainClient Submission Hex.

(** A ledger that accepts every submission under the id ["u1"]. *)
Definition accepting : SubmitGateway :=
  MkSubmitGateway (fun _ _ _ => SubmitHttp 200 (SubmitJson None (Some (Some "u1"))))
    (fun _ => 0%N).

(** A ledger that rejects every submission with status 503. *)
Definition unavailable : SubmitGateway :=
  MkSubmitGateway (fun _ _ _ => SubmitHttp 503 SubmitNotJson) (fun _ => 0%N).

Definition alice_keys : KeyPair :=
  MkKeyPair [Byte.x01; Byte.xab; Byte.xff] [Byte.x00; Byte.x10; Byte.x7f].

(** A SHA-256 stand-in for the examples: the digest is not looked at. *)
Definition no_digest : string -> string := fun _ => "".

End ManagerScenarios.

(** ** currency_chain.py: [transfer], [stake], [claim_rewards] *)

Module CurrencyPosts.
Import Transactions.

(** The answer to a POST: the request raised, or a status and, when the
    body is a JSON object, that object. *)
Inductive JsonReply : Type :=
  | PostFailed (msg : string)
  | PostResponse (status_code : Z) (body : option (gmap string JsonValue)).

Record PostGateway : Type := MkPostGateway {
  posted : nat -> string -> gmap string JsonValue -> JsonReply;
  post_latency : nat -> N
}.

(** The fields of [CurrencyChainTransaction]; none has a default. *)
Definition fields : gset string :=
  {[ "id"; "tx_type"; "from_user"; "to_user"; "amount"; "status";
     "confirmations"; "block_height"; "created_at" ]}.

(** The constructor [CurrencyChainTransaction] called with the keys of
    [data] as keyword arguments: a [TypeError] on a missing field and on an
    unexpected key; the values are taken as they come. The instance is
    given by the value of each field. *)
Definition construct (data : gmap string JsonValue) : result (gmap string JsonValue) :=
  if decide (dom data = fields) then Return data
  else Raise (TypeError "__init__() got unexpected or missing arguments").

(** [self.client.post(...)] on the synchronous client of [__init__]. *)
Definition client_post (r : JsonReply)
    : result (Z * option (gmap string JsonValue)) :=
  match r with
  | PostFailed msg => Raise (HTTPError msg)
  | PostResponse status_code body => Return (status_code, body)
  end.

(** [response = await self.client.post(...)], then
    [response.raise_for_status()] and [response.json()]; no [except]. *)
Definition json_of_reply (r : JsonReply) : result (gmap string JsonValue) :=
  handed_back ← client_post r;
  response ← await_response handed_back;
  let '(status_code, body) := response in
  _ ← raise_for_status status_code;
  match body with
  | Some data => Return data
  | None => Raise (ValueError "json")
  end.

Definition post (pg : PostGateway) (path : string) (params : gmap string JsonValue)
    (n : Net) : JsonReply * Net :=
  (posted pg (sent n) path params,
   MkNet (clock n + Z.of_N (post_latency pg (sent n))) (S (sent n))).

(** [int(time.time())], in seconds. *)
Definition unix_time (n : Net) : Z := clock n / 1000.

(** The two assignments of [transfer]: ["from"] must be there and is moved
    to ["from_user"]; ["to"] is moved to ["to_user"], [None] when absent. *)
Definition renamed (data : gmap string JsonValue) : result (gmap string JsonValue) :=
  sender ← subscript "from" (data !! "from");
  let data1 := <["from_user" := sender]> (delete "from" data) in
  Return (<["to_user" := default JNull (data1 !! "to")]> (delete "to" data1)).

Definition transfer (pg : PostGateway) (from_user to_user : string) (amount : Z)
    (n : Net) : result (gmap string JsonValue) * Net :=
  let '(r, n') :=
    post pg "/currency/transfer"
      {[ "from" := JStr from_user; "to" := JStr to_user; "amount" := JInt amount;
         "timestamp" := JInt (unix_time n) ]} n in
  (data ← json_of_reply r; data' ← renamed data; construct data', n').

(** The two assignments shared by [stake] and [claim_rewards]: ["from"] and
    ["to"] are read, with the caller and [None] as defaults, and stay. *)
Definition with_caller_as_sender (user_id : string) (data : gmap string JsonValue)
    : gmap string JsonValue :=
  let data1 := <["from_user" := default (JStr user_id) (data !! "from")]> data in
  <["to_user" := default JNull (data1 !! "to")]> data1.

Definition stake (pg : PostGateway) (user_id : string)
    (amount lock_duration_seconds : Z) (n : Net)
    : result (gmap string JsonValue) * Net :=
  let '(r, n') :=
    post pg "/currency/stake"
      {[ "user_id" := JStr user_id; "amount" := JInt amount;
         "lock_duration_seconds" := JInt lock_duration_seconds;
         "timestamp" := JInt (unix_time n) ]} n in
  (data ← json_of_reply r; construct (with_caller_as_sender user_id data), n').

Definition claim_rewards (pg : PostGateway) (user_id : string) (n : Net)
    : result (gmap string JsonValue) * Net :=
  let '(r, n') :=
    post pg "/currency/claim_rewards"
      {[ "user_id" := JStr user_id; "timestamp" := JInt (unix_time n) ]} n in
  (data ← json_of_reply r; construct (with_caller_as_sender user_id data), n').

(** An answer of the ledger to a stake: the seven fields it fills. *)
Definition stake_answer : gmap string JsonValue :=
  {[ "id" := JStr "tx9"; "tx_type" := JStr "stake"; "amount" := JInt 50;
     "status" := JStr "pending"; "confirmations" := JInt 0;
     "block_height" := JInt 1; "created_at" := JInt 0 ]}.

(** A ledger that answers every POST with status 200 and [data]. *)
Definition answering (data : gmap string JsonValue) : PostGateway :=
  MkPostGateway (fun _ _ _ => PostResponse 200 (Some data)) (fun _ => 0%N).

End CurrencyPosts.

(** * Properties *)

(** ** The schedule of polls *)

Lemma sent_nth_poll {R} (g : Gateway R) interval j n :
  sent (nth_poll g interval j n) = (sent n + j)%nat.
Proof.
  revert n. induction j as [|j IH]; intros n; simpl.
  - lia.
  - rewrite IH. simpl. lia.
Qed.

Lemma clock_nth_poll_le {R} (g : Gateway R) interval j n :
  0 <= interval -> clock n <= clock (nth_poll g interval j n).
Proof.
  intros Hi. revert n. induction j as [|j IH]; intros n; simpl; [lia|].
  etransitivity; [|apply IH]. simpl. lia.
Qed.

Lemma nth_poll_add {R} (g : Gateway R) interval i j n :
  nth_poll g interval (i + j) n = nth_poll g interval j (nth_poll g interval i n).
Proof. revert n. induction i as [|i IH]; intros n; simpl; [done|apply IH]. Qed.

Lemma clock_nth_poll_mono {R} (g : Gateway R) interval i j n :
  0 <= interval -> (i <= j)%nat ->
  clock (nth_poll g interval i n) <= clock (nth_poll g interval j n).
Proof.
  intros Hi Hij. replace j with (i + (j - i))%nat by lia.
  rewrite nth_poll_add. by apply clock_nth_poll_le.
Qed.

Lemma nth_poll_S {R} (g : Gateway R) interval k n :
  nth_poll g interval (S k) n = next_poll g interval (nth_poll g interval k n).
Proof.
  replace (S k) with (k + 1)%nat by lia. by rewrite nth_poll_add.
Qed.

(** Every poll costs at least the sleep that follows it. *)
Lemma clock_nth_poll_lower {R} (g : Gateway R) interval j n :
  clock n + 1000 * interval * Z.of_nat j <= clock (nth_poll g interval j n).
Proof.
  revert n. induction j as [|j IH]; intros n; simpl nth_poll; [lia|].
  etransitivity; [|apply IH]. simpl. lia.
Qed.

(** Induction towards a deadline: the claim may be assumed for every later
    state reached while the deadline has not passed. *)
Lemma deadline_induction (d : Z) (P : Net -> Prop) :
  (forall n, (forall n', clock n < d -> clock n < clock n' -> P n') -> P n) ->
  forall n, P n.
Proof.
  intros step n.
  remember (Z.to_nat (d - clock n)) as m eqn:Hm.
  revert n Hm. induction m as [m IH] using lt_wf_ind. intros n ->.
  apply step. intros n' Hd Hlt. apply (IH (Z.to_nat (d - clock n'))); [lia|done].
Qed.

(** Two quiet prefixes that both end in a stop (deadline passed, or an
    answer that is not idle) have the same length. *)
Lemma quiet_until_unique {R} (g : Gateway R) interval idle d n k k' :
  quiet_until g interval idle d n k ->
  quiet_until g interval idle d n k' ->
  (d <= clock (nth_poll g interval k n) \/ ~ idle (sent n + k)%nat) ->
  (d <= clock (nth_poll g interval k' n) \/ ~ idle (sent n + k')%nat) ->
  k = k'.
Proof.
  intros Hk Hk' Sk Sk'.
  destruct (lt_eq_lt_dec k k') as [[Hlt| ->]|Hlt]; [|done|].
  - destruct (Hk' k Hlt) as [? ?]. destruct Sk; [lia|done].
  - destruct (Hk k' Hlt) as [? ?]. destruct Sk'; [lia|done].
Qed.

Lemma quiet_until_S {R} (g : Gateway R) interval (idle : nat -> Prop) d n k :
  clock n < d -> idle (sent n) ->
  quiet_until g interval idle d (next_poll g interval n) k ->
  quiet_until g interval idle d n (S k).
Proof.
  intros Hd Hi Hq [|i] Hlt; simpl.
  - by rewrite Nat.add_0_r.
  - destruct (Hq i) as [? Hidle]; [lia|]. split; [done|].
    simpl in Hidle. by replace (sent n + S i)%nat with (S (sent n) + i)%nat by lia.
Qed.

(** What the shared [try] block makes of a reply: a failed request is
    swallowed, and an answer does not get past the [await]. *)
Lemma optional_of_reply_eq {T} (r : RestReply T) :
  optional_of_reply r
  = match r with
    | RequestFailed _ => Return None
    | Response _ _ => Raise not_awaitable
    end.
Proof. by destruct r. Qed.

Lemma answer_at_unanswered {T} (g : Gateway (RestReply T)) tx s :
  unanswered (reply g s tx) -> answer_at g tx s = Return None.
Proof.
  unfold answer_at. rewrite optional_of_reply_eq. by destruct (reply g s tx).
Qed.

Lemma answer_at_answered {T} (g : Gateway (RestReply T)) tx s :
  ~ unanswered (reply g s tx) -> answer_at g tx s = Raise not_awaitable.
Proof.
  unfold answer_at. rewrite optional_of_reply_eq.
  destruct (reply g s tx); simpl; [intros []; exact I|done].
Qed.

Lemma unanswered_dec {T} (r : RestReply T) : unanswered r \/ ~ unanswered r.
Proof. destruct r; simpl; auto. Qed.

Lemma answer_at_cases {T} (g : Gateway (RestReply T)) tx s :
  (unanswered (reply g s tx) /\ answer_at g tx s = Return None)
  \/ (~ unanswered (reply g s tx) /\ answer_at g tx s = Raise not_awaitable).
Proof.
  destruct (unanswered_dec (reply g s tx)) as [Hu|Hu]; [left|right].
  - split; [done|]. by apply answer_at_unanswered.
  - split; [done|]. by apply answer_at_answered.
Qed.

(** ** cross_chain.py: [wait_for_atomic_completion] *)

Module BridgeProps.
Import CrossChainBridge.

Lemma is_success_true tx : is_success tx = true <-> status tx = value ATOMIC_SUCCESS.
Proof. apply bool_decide_eq_true. Qed.

Lemma is_failure_true tx :
  is_failure tx = true
  <-> status tx = value FAILED \/ status tx = value ROLLED_BACK.
Proof.
  unfold is_failure. rewrite orb_true_iff, !bool_decide_eq_true. done.
Qed.

Lemma is_success_false tx : is_success tx = false <-> status tx <> value ATOMIC_SUCCESS.
Proof. apply bool_decide_eq_false. Qed.

Lemma is_failure_false tx :
  is_failure tx = false
  <-> status tx <> value FAILED /\ status tx <> value ROLLED_BACK.
Proof.
  unfold is_failure. rewrite orb_false_iff, !bool_decide_eq_false. done.
Qed.

Section Bridge.

Variable g : Gateway (RestReply CrossChainTransaction).
Variable bridge_tx_id : string.
Variable max_wait_ms : Z.

Lemma bridge_verdict_None r : verdict bridge_tx_id r = None <-> inconclusive r.
Proof.
  destruct r as [[tx|]|e]; simpl; [|done|done].
  destruct (is_success tx) eqn:Hs.
  - apply is_success_true in Hs. split; [done|]. intros (? & _). done.
  - apply is_success_false in Hs. destruct (is_failure tx) eqn:Hf.
    + apply is_failure_true in Hf. split; [done|]. intros (_ & ? & ?).
      destruct Hf; done.
    + apply is_failure_false in Hf. tauto.
Qed.

Local Abbreviation idle := (fun s => inconclusive (answer_at g bridge_tx_id s)).
Local Abbreviation silent := (fun s => unanswered (reply g s bridge_tx_id)).

Lemma completion_loop_unfold start n :
  completion_loop g bridge_tx_id max_wait_ms start n =
  if decide (clock n - start < max_wait_ms) then
    match verdict bridge_tx_id (answer_at g bridge_tx_id (sent n)) with
    | Some out => (out, (request g bridge_tx_id n).2)
    | None => completion_loop g bridge_tx_id max_wait_ms start (next_poll g 1 n)
    end
  else (Raise (TimeoutError (timeout_message bridge_tx_id max_wait_ms)), n).
Proof.
  rewrite completion_loop_unfold_eq. unfold completion_loop_unfold.
  destruct (Z_lt_dec _ _) as [l|l]; case_decide; try lia; [|done].
  unfold completion_loop_unfold_clause_1.
  assert (forall p : { b | get_status g bridge_tx_id n = b },
    completion_loop_unfold_clause_1_clause_2 g bridge_tx_id max_wait_ms start n p l =
    match verdict bridge_tx_id (proj1_sig p).1 with
    | Some out => (out, (proj1_sig p).2)
    | None => completion_loop g bridge_tx_id max_wait_ms start (sleep 1 (proj1_sig p).2)
    end) as Hgen.
  { intros [[[[tx|]|e] n1] E]; simpl; try done.
    unfold completion_loop_unfold_clause_1_clause_2_clause_3.
    destruct (is_success tx); [done|].
    unfold completion_loop_unfold_clause_1_clause_2_clause_3_clause_2.
    by destruct (is_failure tx). }
  rewrite Hgen. reflexivity.
Qed.

(** The run of the loop: it sleeps through [k] inconclusive polls, then
    either the deadline has passed or the [k]-th answer settles it. *)
Lemma completion_loop_trace start n :
  exists k,
    quiet_until g 1 idle (start + max_wait_ms) n k
    /\ ((start + max_wait_ms <= clock (nth_poll g 1 k n)
         /\ completion_loop g bridge_tx_id max_wait_ms start n
            = (Raise (TimeoutError (timeout_message bridge_tx_id max_wait_ms)),
               nth_poll g 1 k n))
        \/ (exists out,
              clock (nth_poll g 1 k n) < start + max_wait_ms
              /\ verdict bridge_tx_id (answer_at g bridge_tx_id (sent n + k)) = Some out
              /\ completion_loop g bridge_tx_id max_wait_ms start n
                 = (out, (request g bridge_tx_id (nth_poll g 1 k n)).2))).
Proof.
  induction n as [n IH] using (deadline_induction (start + max_wait_ms)).
  rewrite completion_loop_unfold. case_decide as Hd.
  - destruct (verdict bridge_tx_id (answer_at g bridge_tx_id (sent n)))
      as [out|] eqn:Hv.
    + exists 0%nat. split; [intros i; lia|]. right. exists out.
      rewrite Nat.add_0_r. simpl. split; [lia|done].
    + destruct (IH (next_poll g 1 n)) as (k & Hpre & Hk); [lia|simpl; lia|].
      exists (S k). split.
      * apply quiet_until_S; [lia| |done]. by apply bridge_verdict_None.
      * simpl.
        replace (sent n + S k)%nat with (sent (next_poll g 1 n) + k)%nat
          by (simpl; lia).
        done.
  - exists 0%nat. split; [intros i; lia|]. left. simpl. split; [lia|done].
Qed.

(** What an iteration concludes, read off the reply of the bridge: a failed
    request lets the loop sleep, an answer ends it at the [await]. *)
Lemma bridge_verdict_of_reply s :
  (silent s /\ verdict bridge_tx_id (answer_at g bridge_tx_id s) = None)
  \/ (~ silent s
      /\ verdict bridge_tx_id (answer_at g bridge_tx_id s)
         = Some (Raise not_awaitable)).
Proof.
  destruct (answer_at_cases g bridge_tx_id s) as [[Hu ->]|[Hu ->]]; auto.
Qed.

Lemma bridge_idle_silent s : idle s <-> silent s.
Proof.
  rewrite <- bridge_verdict_None.
  destruct (bridge_verdict_of_reply s) as [[Hu ->]|[Hu ->]]; split; done.
Qed.

Lemma bridge_quiet_silent d n k :
  quiet_until g 1 idle d n k <-> quiet_until g 1 silent d n k.
Proof.
  split; intros Hq i Hi; destruct (Hq i Hi) as [? ?]; (split; [done|]);
    by apply bridge_idle_silent.
Qed.

(** The run of the shipped loop, in terms of the replies of the bridge: it
    sleeps through [k] failed requests, then either the deadline has passed
    or the [k]-th request is answered and the [await] raises. *)
Lemma completion_loop_run start n :
  exists k,
    quiet_until g 1 silent (start + max_wait_ms) n k
    /\ ((start + max_wait_ms <= clock (nth_poll g 1 k n)
         /\ completion_loop g bridge_tx_id max_wait_ms start n
            = (Raise (TimeoutError (timeout_message bridge_tx_id max_wait_ms)),
               nth_poll g 1 k n))
        \/ (clock (nth_poll g 1 k n) < start + max_wait_ms
            /\ ~ silent (sent n + k)%nat
            /\ completion_loop g bridge_tx_id max_wait_ms start n
               = (Raise not_awaitable, (request g bridge_tx_id (nth_poll g 1 k n)).2))).
Proof.
  destruct (completion_loop_trace start n) as (k & Hq & Hk).
  exists k. split; [by apply bridge_quiet_silent|].
  destruct Hk as [?|(out & Hd & Hv & Hrun)]; [by left|right].
  destruct (bridge_verdict_of_reply (sent n + k)) as [[_ Hv']|[Hu Hv']];
    rewrite Hv' in Hv; [discriminate|].
  injection Hv as <-. done.
Qed.

(** C1. As shipped, [wait_for_atomic_completion] never returns a
    transaction and never raises the [RuntimeError] of a failed or rolled
    back transaction: [get_status] applies [await] to the [Response] that
    the synchronous client hands back, so the first status request that is
    answered before the deadline, whatever the status it reports
    ([atomic_success] included), ends the call with [TypeError]. Requests
    that fail are polled through, and the call raises [TimeoutError] exactly
    when no request is answered before the deadline has passed. *)
Theorem wait_for_atomic_completion_outcome (n : Net) :
  let run := wait_for_atomic_completion g bridge_tx_id max_wait_ms n in
  let d := clock n + max_wait_ms in
  (forall tx, run.1 <> Return tx)
  /\ (forall msg, run.1 <> Raise (RuntimeError msg))
  /\ (run.1 = Raise not_awaitable
      <-> exists k, quiet_until g 1 silent d n k
            /\ clock (nth_poll g 1 k n) < d
            /\ ~ silent (sent n + k)%nat)
  /\ (forall msg,
      run.1 = Raise (TimeoutError msg)
      <-> msg = timeout_message bridge_tx_id max_wait_ms
          /\ exists k, quiet_until g 1 silent d n k
                /\ d <= clock (nth_poll g 1 k n))
  /\ (forall status_code payload,
      0 < max_wait_ms ->
      reply g (sent n) bridge_tx_id = Response status_code payload ->
      run = (Raise not_awaitable, (request g bridge_tx_id n).2)).
Proof.
  intros run d. subst run. unfold wait_for_atomic_completion.
  destruct (completion_loop_run (clock n) n) as (k & Hq & Hk). fold d in Hq, Hk.
  assert (forall k', quiet_until g 1 silent d n k' ->
            (d <= clock (nth_poll g 1 k' n) \/ ~ silent (sent n + k')%nat) ->
            k' = k) as Huniq.
  { intros k' Hq' Hs'. apply (quiet_until_unique g 1 silent d n); try done.
    destruct Hk as [[? _]|(_ & ? & _)]; [by left|by right]. }
  split; [|split; [|split; [|split]]].
  - intros tx. destruct Hk as [[_ ->]|(_ & _ & ->)]; discriminate.
  - intros msg. destruct Hk as [[_ ->]|(_ & _ & ->)]; discriminate.
  - split.
    + destruct Hk as [[_ ->]|(Hd & Hu & _)]; [discriminate|]. intros _. by exists k.
    + intros (k' & Hq' & Hd' & Hu').
      assert (k' = k) as -> by (apply Huniq; [done|by right]).
      destruct Hk as [[? _]|(_ & _ & ->)]; [lia|done].
  - intros msg. split.
    + destruct Hk as [[Hd ->]|(_ & _ & ->)]; [|discriminate].
      intros [= <-]. split; [done|]. by exists k.
    + intros (-> & k' & Hq' & Hd').
      assert (k' = k) as -> by (apply Huniq; [done|by left]).
      destruct Hk as [[_ ->]|(? & _)]; [done|lia].
  - intros status_code payload Hw Hr.
    assert (0%nat = k) as <-.
    { apply Huniq; [intros i Hi; lia|]. right. rewrite Nat.add_0_r, Hr.
      simpl. tauto. }
    destruct Hk as [[Hd _]|(_ & _ & ->)]; [simpl in Hd; lia|done].
Qed.

End Bridge.
End BridgeProps.


(** ** chat_chain.py, currency_chain.py: [wait_for_confirmation] *)

Module ChainProps.
Import ChainClient.

Section Chain.

Context {T : Type} `{ChainTransaction T}.
Variable g : Gateway (RestReply T).
Variable tx : string.
Variable confirmations : Z.
Variable max_wait_ms : Z.

Local Abbreviation idle := (fun s => unconfirmed confirmations (answer_at g tx s)).
Local Abbreviation silent := (fun s => unanswered (reply g s tx)).

Lemma chain_verdict_None r : verdict confirmations r = None <-> unconfirmed confirmations r.
Proof.
  destruct r as [[t|]|e]; simpl; [|done|done].
  destruct (Z_le_dec _ _); split; (done || lia).
Qed.

Lemma chain_confirmation_loop_unfold start n :
  confirmation_loop g tx confirmations max_wait_ms start n =
  if decide (clock n - start < max_wait_ms) then
    match verdict confirmations (answer_at g tx (sent n)) with
    | Some out => (out, (request g tx n).2)
    | None => confirmation_loop g tx confirmations max_wait_ms start (next_poll g 1 n)
    end
  else (Raise (TimeoutError (timeout_message tx max_wait_ms)), n).
Proof.
  rewrite confirmation_loop_unfold_eq. unfold confirmation_loop_unfold.
  destruct (Z_lt_dec _ _) as [l|l]; case_decide; try lia; [|done].
  unfold confirmation_loop_unfold_clause_1.
  assert (forall p : { b | get_transaction g tx n = b },
    confirmation_loop_unfold_clause_1_clause_2 g tx confirmations max_wait_ms start n p l =
    match verdict confirmations (proj1_sig p).1 with
    | Some out => (out, (proj1_sig p).2)
    | None => confirmation_loop g tx confirmations max_wait_ms start
                (sleep 1 (proj1_sig p).2)
    end) as Hgen.
  { intros [[[[t|]|e] n1] E]; simpl; try done.
    unfold confirmation_loop_unfold_clause_1_clause_2_clause_3.
    by destruct (Z_le_dec _ _). }
  rewrite Hgen. reflexivity.
Qed.

(** The run of the loop: it sleeps through [k] polls that show no confirmed
    transaction, then either the deadline has passed or the [k]-th answer
    settles it. *)
Lemma chain_confirmation_loop_trace start n :
  exists k,
    quiet_until g 1 idle (start + max_wait_ms) n k
    /\ ((start + max_wait_ms <= clock (nth_poll g 1 k n)
         /\ confirmation_loop g tx confirmations max_wait_ms start n
            = (Raise (TimeoutError (timeout_message tx max_wait_ms)),
               nth_poll g 1 k n))
        \/ (exists out,
              clock (nth_poll g 1 k n) < start + max_wait_ms
              /\ verdict confirmations (answer_at g tx (sent n + k)) = Some out
              /\ confirmation_loop g tx confirmations max_wait_ms start n
                 = (out, (request g tx (nth_poll g 1 k n)).2))).
Proof.
  induction n as [n IH] using (deadline_induction (start + max_wait_ms)).
  rewrite chain_confirmation_loop_unfold. case_decide as Hd.
  - destruct (verdict confirmations (answer_at g tx (sent n))) as [out|] eqn:Hv.
    + exists 0%nat. split; [intros i; lia|]. right. exists out.
      rewrite Nat.add_0_r. simpl. split; [lia|done].
    + destruct (IH (next_poll g 1 n)) as (k & Hpre & Hk); [lia|simpl; lia|].
      exists (S k). split.
      * apply quiet_until_S; [lia| |done]. by apply chain_verdict_None.
      * simpl.
        replace (sent n + S k)%nat with (sent (next_poll g 1 n) + k)%nat
          by (simpl; lia).
        done.
  - exists 0%nat. split; [intros i; lia|]. left. simpl. split; [lia|done].
Qed.

(** What an iteration concludes, read off the reply of the ledger: a failed
    request lets the loop sleep, an answer ends it at the [await]; the
    threshold is never compared with anything. *)
Lemma chain_verdict_of_reply s :
  (silent s /\ verdict confirmations (answer_at g tx s) = None)
  \/ (~ silent s
      /\ verdict confirmations (answer_at g tx s) = Some (Raise not_awaitable)).
Proof.
  destruct (answer_at_cases g tx s) as [[Hu ->]|[Hu ->]]; auto.
Qed.

Lemma chain_idle_silent s : idle s <-> silent s.
Proof.
  rewrite <- chain_verdict_None.
  destruct (chain_verdict_of_reply s) as [[Hu ->]|[Hu ->]]; split; done.
Qed.

(** The run of the shipped loop, in terms of the replies of the ledger. *)
Lemma chain_confirmation_loop_run start n :
  exists k,
    quiet_until g 1 silent (start + max_wait_ms) n k
    /\ ((start + max_wait_ms <= clock (nth_poll g 1 k n)
         /\ confirmation_loop g tx confirmations max_wait_ms start n
            = (Raise (TimeoutError (timeout_message tx max_wait_ms)),
               nth_poll g 1 k n))
        \/ (clock (nth_poll g 1 k n) < start + max_wait_ms
            /\ ~ silent (sent n + k)%nat
            /\ confirmation_loop g tx confirmations max_wait_ms start n
               = (Raise not_awaitable, (request g tx (nth_poll g 1 k n)).2))).
Proof.
  destruct (chain_confirmation_loop_trace start n) as (k & Hq & Hk).
  exists k. split.
  { intros i Hi. destruct (Hq i Hi) as [? ?]. split; [done|].
    by apply chain_idle_silent. }
  destruct Hk as [?|(out & Hd & Hv & Hrun)]; [by left|right].
  destruct (chain_verdict_of_reply (sent n + k)) as [[_ Hv']|[Hu Hv']];
    rewrite Hv' in Hv; [discriminate|].
  injection Hv as <-. done.
Qed.

(** One iteration that starts before the deadline: a request that fails
    goes on to the next poll, a request that is answered ends the loop. *)
Lemma chain_poll_step start n :
  clock n - start < max_wait_ms ->
  (silent (sent n) ->
   confirmation_loop g tx confirmations max_wait_ms start n
   = confirmation_loop g tx confirmations max_wait_ms start (next_poll g 1 n))
  /\ (~ silent (sent n) ->
      confirmation_loop g tx confirmations max_wait_ms start n
      = (Raise not_awaitable, (request g tx n).2)).
Proof.
  intros Hd. rewrite chain_confirmation_loop_unfold at 1 2.
  rewrite decide_True by done.
  destruct (chain_verdict_of_reply (sent n)) as [[Hu ->]|[Hu ->]]; split; done.
Qed.

(** C5. As shipped, [wait_for_confirmation] of a confirmation-count ledger
    never returns a transaction, whatever confirmations the ledger reports:
    [get_transaction] applies [await] to the [Response] that the synchronous
    client hands back, so the first request that is answered before the
    deadline ends the call with [TypeError], before the confirmations are
    looked at. *)
Theorem wait_for_confirmation_never_returns (n : Net) :
  let run := wait_for_confirmation g tx confirmations max_wait_ms n in
  let d := clock n + max_wait_ms in
  (forall t, run.1 <> Return t)
  /\ (run.1 = Raise not_awaitable
      <-> exists k, quiet_until g 1 silent d n k
            /\ clock (nth_poll g 1 k n) < d
            /\ ~ silent (sent n + k)%nat)
  /\ (forall status_code payload,
      0 < max_wait_ms ->
      reply g (sent n) tx = Response status_code payload ->
      run = (Raise not_awaitable, (request g tx n).2)).
Proof.
  intros run d. subst run. unfold wait_for_confirmation.
  destruct (chain_confirmation_loop_run (clock n) n) as (k & Hq & Hk).
  fold d in Hq, Hk.
  assert (forall k', quiet_until g 1 silent d n k' ->
            (d <= clock (nth_poll g 1 k' n) \/ ~ silent (sent n + k')%nat) ->
            k' = k) as Huniq.
  { intros k' Hq' Hs'. apply (quiet_until_unique g 1 silent d n); try done.
    destruct Hk as [[? _]|(_ & ? & _)]; [by left|by right]. }
  split; [|split].
  - intros t. destruct Hk as [[_ ->]|(_ & _ & ->)]; discriminate.
  - split.
    + destruct Hk as [[_ ->]|(Hd & Hu & _)]; [discriminate|]. intros _. by exists k.
    + intros (k' & Hq' & Hd' & Hu').
      assert (k' = k) as -> by (apply Huniq; [done|by right]).
      destruct Hk as [[? _]|(_ & _ & ->)]; [lia|done].
  - intros status_code payload Hw Hr.
    destruct (chain_poll_step (clock n) n) as [_ Hstep]; [lia|].
    apply Hstep. rewrite Hr. simpl. tauto.
Qed.


End Chain.
End ChainProps.

(** *** Ledgers that answer *)

Module AnsweredLedgers.
Import Scenarios.

(** C1 on a bridge that reports [atomic_success] at once: the transaction
    is not returned, the call ends with [TypeError] after one request. *)
Lemma wait_for_atomic_completion_outcome_witness :
  let tx := CrossChainBridge.MkCrossChainTransaction "b1" "register_user_with_stake"
              "alice" (Some "c1") (Some "m1") "atomic_success" 0 (Some 5) in
  let bridge := steady (Response 200 (Decoded tx)) 0 in
  CrossChainBridge.status tx = CrossChainBridge.value CrossChainBridge.ATOMIC_SUCCESS
  /\ CrossChainBridge.wait_for_atomic_completion bridge "b1"
       CrossChainBridge.default_max_wait_ms (MkNet 0 0)
     = (Raise not_awaitable, MkNet 0 1).
Proof.
  intros tx bridge. split; [reflexivity|].
  apply (proj2 (proj2 (proj2 (proj2
           (BridgeProps.wait_for_atomic_completion_outcome bridge "b1"
              CrossChainBridge.default_max_wait_ms (MkNet 0 0)))))
           200 (Decoded tx)).
  - reflexivity.
  - reflexivity.
Defined.

(** The same bridge reporting [failed]: no [RuntimeError] names the status. *)
Example failed_status_raises_TypeError :
  let tx := CrossChainBridge.MkCrossChainTransaction "b1" "register_user_with_stake"
              "alice" None None "failed" 0 None in
  CrossChainBridge.wait_for_atomic_completion (steady (Response 200 (Decoded tx)) 0)
    "b1" 60000 (MkNet 0 0)
  = (Raise not_awaitable, MkNet 0 1).
Proof. vm_compute. reflexivity. Qed.

(** C5 on a chat-chain ledger and on a currency-chain ledger that report six
    confirmations, the default threshold, at once. *)
Lemma wait_for_confirmation_never_returns_witness :
  let chat_tx := ChatChain.MkChatChainTransaction "tx1" "register_user" "alice" ∅
                   "confirmed" 6 1 0 in
  let coin_tx := CurrencyChain.MkCurrencyChainTransaction "tx2" "transfer"
                   (Some "alice") (Some "bob") 5 "confirmed" 6 1 0 in
  ChatChain.wait_for_confirmation (steady (Response 200 (Decoded chat_tx)) 0) "tx1"
    ChainClient.default_confirmations ChainClient.default_max_wait_ms (MkNet 0 0)
  = (Raise not_awaitable, MkNet 0 1)
  /\ CurrencyChain.wait_for_confirmation (steady (Response 200 (Decoded coin_tx)) 0)
       "tx2" ChainClient.default_confirmations ChainClient.default_max_wait_ms
       (MkNet 0 0)
     = (Raise not_awaitable, MkNet 0 1).
Proof.
  intros chat_tx coin_tx. split.
  - apply (proj2 (proj2
             (ChainProps.wait_for_confirmation_never_returns
                (steady (Response 200 (Decoded chat_tx)) 0) "tx1"
                ChainClient.default_confirmations ChainClient.default_max_wait_ms
                (MkNet 0 0))) 200 (Decoded chat_tx)); reflexivity.
  - apply (proj2 (proj2
             (ChainProps.wait_for_confirmation_never_returns
                (steady (Response 200 (Decoded coin_tx)) 0) "tx2"
                ChainClient.default_confirmations ChainClient.default_max_wait_ms
                (MkNet 0 0))) 200 (Decoded coin_tx)); reflexivity.
Defined.


End AnsweredLedgers.


(** ** client.py: [wait_for_confirmation], [is_transaction_confirmed] *)

Module ClientProps.
Import BlockchainClient.

Section Client.

Variable fromisoformat : string -> option Z.
Variable cfg : BlockchainConfig.
Variable g : Gateway RpcReply.
Variable tx : string.

(** The ledger as the session sees it: no request lasts longer than the
    total timeout. *)
Local Abbreviation seen := (session g).
Local Abbreviation receipt_at := (BlockchainClient.receipt_at fromisoformat g tx).
Local Abbreviation loop := (confirmation_loop fromisoformat cfg g tx).
Local Abbreviation idle := (fun s => pending (receipt_at s)).

(** [get_transaction_receipt] swallows every exception. *)
Lemma receipt_at_returns s : exists o, receipt_at s = Return o.
Proof.
  unfold BlockchainClient.receipt_at, try_except.
  destruct (receipt_of_reply _ _) as [o|e]; eauto.
Qed.

Lemma get_transaction_receipt_eq st :
  get_transaction_receipt fromisoformat g tx st
  = (receipt_at (sent (net st)),
     MkClientState (_transaction_cache st) (request seen tx (net st)).2).
Proof. reflexivity. Qed.

Lemma client_verdict_None r : verdict r = None <-> pending r.
Proof.
  destruct r as [[rc|]|e]; simpl; [|done|done].
  destruct (truth (success rc)); [split; [done|intros [? _]; done]|].
  destruct (truthy (error rc)); [split; [done|intros [_ ?]; done]|done].
Qed.

Lemma client_verdict_Return r rc :
  verdict r = Some (Return rc) <-> r = Return (Some rc) /\ truth (success rc) = true.
Proof.
  destruct r as [[rc'|]|e]; simpl.
  - destruct (truth (success rc')) eqn:Hs.
    + split; [intros [= ->]; done|intros [[= ->] _]; done].
    + split; [destruct (truthy (error rc')); discriminate|].
      intros [[= ->] ?]. congruence.
  - split; [discriminate|]. intros [? _]. discriminate.
  - split; [discriminate|]. intros [? _]. discriminate.
Qed.

Lemma client_verdict_Raise s e :
  verdict (receipt_at s) = Some (Raise e)
  <-> exists rc, receipt_at s = Return (Some rc)
        /\ truth (success rc) = false /\ truthy (error rc) = true
        /\ e = Exception (failure_message rc).
Proof.
  destruct (receipt_at_returns s) as [[rc|] ->]; simpl.
  - destruct (truth (success rc)) eqn:Hs.
    + split; [discriminate|]. intros (? & [= <-] & ? & _). congruence.
    + destruct (truthy (error rc)) eqn:He.
      * split; [intros [= <-]; by exists rc|].
        intros (? & [= <-] & _ & _ & ->). done.
      * split; [discriminate|]. intros (? & [= <-] & _ & ? & _). congruence.
  - split; [discriminate|]. intros (? & ? & _). discriminate.
Qed.

Lemma client_confirmation_loop_unfold d st :
  loop d st =
  if decide (clock (net st) < d) then
    let r := receipt_at (sent (net st)) in
    let c := cached tx r (_transaction_cache st) in
    match verdict r with
    | Some out => (out, MkClientState c (request seen tx (net st)).2)
    | None => loop d (MkClientState c (next_poll seen 2 (net st)))
    end
  else (Raise (TimeoutError (timeout_message cfg)), st).
Proof.
  rewrite confirmation_loop_unfold_eq. unfold confirmation_loop_unfold.
  destruct (Z_lt_dec _ _) as [l|l]; case_decide; try lia; [|done].
  unfold confirmation_loop_unfold_clause_1.
  assert (forall p : { b | get_transaction_receipt fromisoformat g tx st = b },
    confirmation_loop_unfold_clause_1_clause_2 fromisoformat cfg g tx d st p l =
    let r := (proj1_sig p).1 in
    let st1 := (proj1_sig p).2 in
    let c := cached tx r (_transaction_cache st1) in
    match verdict r with
    | Some out => (out, MkClientState c (net st1))
    | None => loop d (MkClientState c (sleep 2 (net st1)))
    end) as Hgen.
  { intros [[[[rc|]|e] st1] E]; simpl.
    - unfold confirmation_loop_unfold_clause_1_clause_2_clause_3.
      destruct (truth (success rc)); [done|].
      unfold confirmation_loop_unfold_clause_1_clause_2_clause_3_clause_2.
      by destruct (truthy (error rc)).
    - done.
    - by destruct st1. }
  rewrite Hgen. reflexivity.
Qed.

Lemma client_deadline_induction (d : Z) (P : ClientState -> Prop) :
  (forall st,
     (forall st', clock (net st) < d -> clock (net st) < clock (net st') -> P st') ->
     P st) ->
  forall st, P st.
Proof.
  intros step st. remember (net st) as n eqn:Hn. revert st Hn.
  induction n as [n IH] using (deadline_induction d). intros st ->.
  apply step. intros st' Hd Hlt. by apply (IH (net st')).
Qed.

(** The run of the loop: it sleeps through [k] polls that show no terminal
    receipt, then either the deadline has passed or the [k]-th fetch
    settles it. *)
Lemma client_confirmation_loop_trace d st :
  exists k,
    let c := cache_after fromisoformat g tx k (sent (net st)) (_transaction_cache st) in
    let n := nth_poll seen 2 k (net st) in
    quiet_until seen 2 idle d (net st) k
    /\ ((d <= clock n
         /\ loop d st
            = (Raise (TimeoutError (timeout_message cfg)), MkClientState c n))
        \/ (exists out,
              clock n < d
              /\ verdict (receipt_at (sent (net st) + k)) = Some out
              /\ loop d st
                 = (out, MkClientState
                           (cached tx (receipt_at (sent (net st) + k)) c)
                           (request seen tx n).2))).
Proof.
  induction st as [st IH] using (client_deadline_induction d).
  rewrite client_confirmation_loop_unfold. case_decide as Hd.
  - cbv zeta. destruct (verdict (receipt_at (sent (net st)))) as [out|] eqn:Hv.
    + exists 0%nat. simpl. split; [intros i; lia|]. right. exists out.
      rewrite Nat.add_0_r. done.
    + match goal with |- context [loop d ?s] => destruct (IH s) as (k & Hpre & Hk) end;
        [done|simpl; lia|].
      simpl in Hpre, Hk.
      exists (S k). simpl. split.
      * apply quiet_until_S; [done| |done]. by apply client_verdict_None.
      * by replace (sent (net st) + S k)%nat with (S (sent (net st) + k))%nat by lia.
  - exists 0%nat. simpl. split; [intros i; lia|]. left. split; [lia|].
    by destruct st.
Qed.

Lemma wait_for_confirmation_uncached st :
  no_terminal_cached tx st ->
  wait_for_confirmation fromisoformat cfg g tx st
  = loop (clock (net st) + 1000 * confirmation_timeout cfg) st.
Proof.
  unfold no_terminal_cached, wait_for_confirmation.
  destruct (_transaction_cache st !! tx) as [c|]; [|done].
  intros [-> ->]. done.
Qed.

Lemma truthy_true (o : option string) :
  truthy o = true <-> exists reason, o = Some reason /\ reason <> "".
Proof.
  destruct o as [[|a s]|]; simpl; split; try done.
  - intros (r & [= <-] & ?). done.
  - intros _. by eexists.
  - intros (r & ? & _). done.
Qed.

Lemma failure_message_reason rc reason :
  error rc = Some reason -> failure_message rc = "Transaction failed: " +:+ reason.
Proof. unfold failure_message. by intros ->. Qed.

(** What the first conclusive poll of a run decides. *)
Lemma confirmation_loop_outcome d st :
  let out := (loop d st).1 in
  let n := net st in
  (forall rc,
      out = Return rc
      <-> exists k, quiet_until seen 2 idle d n k
            /\ clock (nth_poll seen 2 k n) < d
            /\ receipt_at (sent n + k) = Return (Some rc)
            /\ truth (success rc) = true)
  /\ (forall e,
      (exists k rc, quiet_until seen 2 idle d n k
            /\ clock (nth_poll seen 2 k n) < d
            /\ receipt_at (sent n + k) = Return (Some rc)
            /\ truth (success rc) = false /\ truthy (error rc) = true
            /\ e = Exception (failure_message rc))
      \/ (e = TimeoutError (timeout_message cfg)
          /\ exists k, quiet_until seen 2 idle d n k /\ d <= clock (nth_poll seen 2 k n))
      <-> out = Raise e).
Proof.
  intros out n. subst out n.
  destruct (client_confirmation_loop_trace d st) as (k & Hq & Hk). cbv zeta in Hq, Hk.
  assert (forall k', quiet_until seen 2 idle d (net st) k' ->
            (d <= clock (nth_poll seen 2 k' (net st))
             \/ ~ idle (sent (net st) + k')%nat) -> k' = k) as Huniq.
  { intros k' Hq' Hs'. apply (quiet_until_unique seen 2 idle d (net st)); try done.
    destruct Hk as [[? _]|(o & _ & Hv & _)]; [by left|right].
    rewrite <- client_verdict_None. by rewrite Hv. }
  split.
  - intros rc. split.
    + destruct Hk as [[_ ->]|(o & Hd & Hv & ->)]; simpl; [discriminate|].
      intros ->. apply client_verdict_Return in Hv as [? ?]. by exists k.
    + intros (k' & Hq' & Hd' & Ha & Hs).
      assert (k' = k) as ->.
      { apply Huniq; [done|]. right. rewrite Ha. simpl. intros [? _]. congruence. }
      destruct Hk as [[? _]|(o & _ & Hv & ->)]; [lia|]. simpl.
      assert (verdict (receipt_at (sent (net st) + k)) = Some (Return rc)) as Hv'
        by (by apply client_verdict_Return).
      congruence.
  - intros e. split.
    + intros [(k' & rc & Hq' & Hd' & Ha & Hs & He & ->)|(-> & k' & Hq' & Hd')].
      * assert (k' = k) as ->.
        { apply Huniq; [done|]. right. rewrite Ha. simpl. intros [_ ?]. congruence. }
        destruct Hk as [[? _]|(o & _ & Hv & ->)]; [lia|]. simpl.
        assert (verdict (receipt_at (sent (net st) + k))
                = Some (Raise (Exception (failure_message rc)))) as Hv'.
        { apply client_verdict_Raise. by exists rc. }
        congruence.
      * assert (k' = k) as -> by (apply Huniq; [done|by left]).
        destruct Hk as [[_ ->]|(o & ? & _)]; [done|lia].
    + destruct Hk as [[Hd ->]|(o & Hd & Hv & ->)]; simpl.
      * intros [= <-]. right. split; [done|]. by exists k.
      * intros ->. left. apply client_verdict_Raise in Hv as (rc & ? & ? & ? & ?).
        by exists k, rc.
Qed.

Lemma confirmation_loop_decisive d st k out :
  quiet_until seen 2 idle d (net st) k ->
  clock (nth_poll seen 2 k (net st)) < d ->
  verdict (receipt_at (sent (net st) + k)) = Some out ->
  loop d st
  = (out,
     MkClientState
       (cached tx (receipt_at (sent (net st) + k))
          (cache_after fromisoformat g tx k (sent (net st)) (_transaction_cache st)))
       (request seen tx (nth_poll seen 2 k (net st))).2).
Proof.
  intros Hq Hd Hv.
  destruct (client_confirmation_loop_trace d st) as (k' & Hq' & Hk). cbv zeta in Hq', Hk.
  assert (k = k') as <-.
  { apply (quiet_until_unique seen 2 idle d (net st)); try done.
    - right. rewrite <- client_verdict_None. by rewrite Hv.
    - destruct Hk as [[? _]|(o & _ & Hv' & _)]; [by left|right].
      rewrite <- client_verdict_None. by rewrite Hv'. }
  destruct Hk as [[? _]|(o & _ & Hv' & ->)]; [lia|]. congruence.
Qed.

Lemma confirmation_loop_expired d st :
  (forall j, clock (nth_poll seen 2 j (net st)) < d -> idle (sent (net st) + j)%nat) ->
  exists k,
    quiet_until seen 2 idle d (net st) k
    /\ d <= clock (nth_poll seen 2 k (net st))
    /\ loop d st
       = (Raise (TimeoutError (timeout_message cfg)),
          MkClientState
            (cache_after fromisoformat g tx k (sent (net st)) (_transaction_cache st))
            (nth_poll seen 2 k (net st))).
Proof.
  intros Hidle.
  destruct (client_confirmation_loop_trace d st) as (k & Hq & [[? ?]|(o & Hd & Hv & _)]).
  - by exists k.
  - apply Hidle, client_verdict_None in Hd. congruence.
Qed.

(** A quiet prefix of [k] polls fits [ceil(timeout / 2)] polls, and its
    last poll started before the deadline. *)
Lemma quiet_until_bound n k (timeout : Z) :
  quiet_until seen 2 idle (clock n + 1000 * timeout) n k ->
  Z.of_nat k <= Z.max 0 ((timeout + 1) / 2)
  /\ (k = 0%nat
      \/ clock (nth_poll seen 2 k n)
         < clock n + 1000 * timeout + 2000 + Z.of_N (latency seen (sent n + k - 1))).
Proof.
  intros Hq. destruct k as [|k]; [split; [lia|by left]|].
  destruct (Hq k) as [Hd _]; [lia|].
  pose proof (clock_nth_poll_lower seen 2 k n) as Hlow. split.
  - etransitivity; [|apply Z.le_max_r].
    apply Z.div_le_lower_bound; lia.
  - right. rewrite nth_poll_S. simpl. rewrite sent_nth_poll.
    replace (sent n + S k - 1)%nat with (sent n + k)%nat by lia. lia.
Qed.

(** C2, as amended. With no terminal receipt cached for the transaction,
    [wait_for_confirmation] returns a receipt exactly when it is the first
    terminal one, fetched by a poll that starts before the deadline, and its
    [success] is true, whether or not it also carries an error; it raises
    ["Transaction failed: " + reason] exactly when that receipt has [success]
    false and a non-empty [error]; it raises [TimeoutError] exactly when
    every poll up to the deadline shows no terminal receipt. A receipt with
    [success] false and an empty [error] is not terminal. The code tests
    [success] as it came from the ledger, by its truth value: [truth] is the
    identity on booleans. *)
Theorem wait_for_confirmation_outcome (st : ClientState) :
  no_terminal_cached tx st ->
  let out := (wait_for_confirmation fromisoformat cfg g tx st).1 in
  let n := net st in
  let d := clock n + 1000 * confirmation_timeout cfg in
  (forall rc,
      out = Return rc
      <-> exists k, quiet_until seen 2 idle d n k
            /\ clock (nth_poll seen 2 k n) < d
            /\ receipt_at (sent n + k) = Return (Some rc)
            /\ truth (success rc) = true)
  /\ (forall msg,
      out = Raise (Exception msg)
      <-> exists k rc reason, quiet_until seen 2 idle d n k
            /\ clock (nth_poll seen 2 k n) < d
            /\ receipt_at (sent n + k) = Return (Some rc)
            /\ truth (success rc) = false
            /\ error rc = Some reason /\ reason <> ""
            /\ msg = "Transaction failed: " +:+ reason)
  /\ (forall msg,
      out = Raise (TimeoutError msg)
      <-> msg = timeout_message cfg
          /\ exists k, quiet_until seen 2 idle d n k /\ d <= clock (nth_poll seen 2 k n)).
Proof.
  intros Hc out n d. subst out. rewrite (wait_for_confirmation_uncached st Hc).
  fold n d. destruct (confirmation_loop_outcome d st) as [Hret Hraise].
  cbv zeta in Hret, Hraise. fold n in Hret, Hraise.
  split; [exact Hret|]. split.
  - intros msg. rewrite <- Hraise. split.
    + intros [(k & rc & Hq & Hd & Ha & Hs & He & [= ->])|[? _]]; [|discriminate].
      apply truthy_true in He as (reason & He & Hne).
      exists k, rc, reason. by rewrite (failure_message_reason rc reason).
    + intros (k & rc & reason & Hq & Hd & Ha & Hs & He & Hne & ->). left.
      exists k, rc. rewrite (failure_message_reason rc reason He).
      repeat (split; [done|]). split; [|done].
      apply truthy_true. by exists reason.
  - intros msg. rewrite <- Hraise. split.
    + intros [(k & rc & _ & _ & _ & _ & _ & ?)|[[= ->] ?]]; [discriminate|done].
    + intros [-> ?]. by right.
Qed.

(** C8. When the first two polls show no terminal receipt and the third,
    started before the deadline, fetches a receipt with [success] true (any
    truthy value will do) and block height 10, [wait_for_confirmation]
    returns that receipt after exactly three requests: none is sent after
    the third. *)
Theorem confirmed_on_third_poll (st : ClientState) (rc : TransactionReceipt) :
  no_terminal_cached tx st ->
  pending (receipt_at (sent (net st))) ->
  pending (receipt_at (sent (net st) + 1)) ->
  receipt_at (sent (net st) + 2) = Return (Some rc) ->
  truth (success rc) = true ->
  block_height rc = Some 10 ->
  clock (nth_poll seen 2 2 (net st)) < clock (net st) + 1000 * confirmation_timeout cfg ->
  let run := wait_for_confirmation fromisoformat cfg g tx st in
  run.1 = Return rc
  /\ sent (net run.2) = (sent (net st) + 3)%nat
  /\ _transaction_cache run.2 !! tx = Some rc.
Proof.
  intros Hc H0 H1 H2 Hs _ Hd run. subst run.
  rewrite (wait_for_confirmation_uncached st Hc).
  set (d := clock (net st) + 1000 * confirmation_timeout cfg) in *.
  assert (quiet_until seen 2 idle d (net st) 2) as Hq.
  { intros i Hi. split.
    - pose proof (clock_nth_poll_mono seen 2 i 2 (net st)). lia.
    - destruct i as [|[|i]]; [by rewrite Nat.add_0_r|done|lia]. }
  rewrite (confirmation_loop_decisive d st 2 (Return rc) Hq Hd).
  - simpl. rewrite H2. simpl. rewrite lookup_insert_eq.
    repeat split. lia.
  - apply client_verdict_Return. done.
Qed.

(** C7, as amended. When no terminal receipt is cached and every poll up to
    the deadline shows none (transport errors included), the call raises
    [TimeoutError]; it does so after the deadline, after at most
    [ceil(timeout / 2)] polls, and, when it polled at all, less than one
    poll interval (2 s) plus the duration of the last fetch after the
    deadline; no fetch lasts longer than the total timeout of the session. *)
Theorem timeout_within_bound (st : ClientState) :
  let d := clock (net st) + 1000 * confirmation_timeout cfg in
  no_terminal_cached tx st ->
  (forall j, clock (nth_poll seen 2 j (net st)) < d -> idle (sent (net st) + j)%nat) ->
  exists k,
    let run := wait_for_confirmation fromisoformat cfg g tx st in
    run.1 = Raise (TimeoutError (timeout_message cfg))
    /\ net run.2 = nth_poll seen 2 k (net st)
    /\ d <= clock (net run.2)
    /\ Z.of_nat k <= Z.max 0 ((confirmation_timeout cfg + 1) / 2)
    /\ (k = 0%nat
        \/ clock (net run.2)
           < d + 2000 + Z.of_N (latency seen (sent (net st) + k - 1)))
    /\ (forall s, (latency seen s <= total_timeout)%N).
Proof.
  intros d Hc Hidle. rewrite (wait_for_confirmation_uncached st Hc). fold d.
  destruct (confirmation_loop_expired d st Hidle) as (k & Hq & Hd & ->).
  exists k. simpl. destruct (quiet_until_bound (net st) k _ Hq) as [Hk Hlate].
  repeat (split; [done|]). intros s. apply N.le_min_r.
Qed.

Lemma transient_receipt_at s :
  transient (reply seen s tx) -> receipt_at s = Return None.
Proof.
  unfold BlockchainClient.receipt_at, receipt_of_reply.
  destruct (reply seen s tx) as [msg| |status body]; simpl; [done..|].
  intros Hne. by rewrite bool_decide_eq_true_2.
Qed.

Lemma cache_after_unchanged k s c :
  (forall i, (i < k)%nat -> receipt_at (s + i) = Return None) ->
  cache_after fromisoformat g tx k s c = c.
Proof.
  revert s c. induction k as [|k IH]; intros s c Hnone; simpl; [done|].
  rewrite (IH (S s)).
  - specialize (Hnone 0%nat). rewrite Nat.add_0_r in Hnone. rewrite Hnone; [done|lia].
  - intros i Hi. replace (S s + i)%nat with (s + S i)%nat by lia. apply Hnone. lia.
Qed.

(** A poll of the generic client that is answered by a transport failure
    goes on to the next poll with the cache untouched, and a run of nothing
    else ends in [TimeoutError] once the deadline has passed. *)
Lemma transient_polls_continue :
  (forall d st,
      clock (net st) < d ->
      transient (reply seen (sent (net st)) tx) ->
      loop d st
      = loop d (MkClientState (_transaction_cache st) (next_poll seen 2 (net st))))
  /\ (forall st,
      let d := clock (net st) + 1000 * confirmation_timeout cfg in
      no_terminal_cached tx st ->
      (forall j, clock (nth_poll seen 2 j (net st)) < d ->
                 transient (reply seen (sent (net st) + j) tx)) ->
      exists k,
        d <= clock (nth_poll seen 2 k (net st))
        /\ wait_for_confirmation fromisoformat cfg g tx st
           = (Raise (TimeoutError (timeout_message cfg)),
              MkClientState (_transaction_cache st) (nth_poll seen 2 k (net st)))).
Proof.
  split.
  - intros d st Hd Ht. rewrite client_confirmation_loop_unfold at 1.
    rewrite decide_True by done. cbv zeta.
    by rewrite (transient_receipt_at _ Ht).
  - intros st d Hc Ht. rewrite (wait_for_confirmation_uncached st Hc). fold d.
    destruct (confirmation_loop_expired d st) as (k & Hq & Hd & ->).
    { intros j Hj. by rewrite (transient_receipt_at _ (Ht j Hj)). }
    exists k. split; [done|]. rewrite cache_after_unchanged; [done|].
    intros i Hi. apply transient_receipt_at, Ht. by apply Hq.
Qed.

(** The cache-first return: a cached terminal receipt is handed back as it
    is, with no request and no change of state. *)
Lemma wait_for_confirmation_cached st c :
  _transaction_cache st !! tx = Some c ->
  truth (success c) || truthy (error c) = true ->
  wait_for_confirmation fromisoformat cfg g tx st = (Return c, st).
Proof. unfold wait_for_confirmation. by intros -> ->. Qed.

(** A receipt carries the [success] and [error] of the ledger's answer. *)
Lemma receipt_mirrors_reply s rc :
  receipt_at s = Return (Some rc) ->
  exists res,
    reply seen s tx = HttpReply 200 (Result res)
    /\ j_success res = Some (success rc) /\ j_error res = error rc.
Proof.
  unfold BlockchainClient.receipt_at, receipt_of_reply.
  destruct (reply seen s tx) as [msg| |status [| |res]]; simpl; [done|done|..].
  all: case_bool_decide as Hst; simpl; try done.
  subst status.
  destruct (j_tx_id res) as [i|]; [|done].
  destruct (j_tx_hash res) as [h|]; [|done].
  destruct (j_success res) as [b|] eqn:Hb; [|done]. simpl.
  destruct (parse_timestamp fromisoformat (j_timestamp res)) as [t|e]; [|done].
  simpl. intros [= <-]. exists res. simpl. done.
Qed.

Lemma cache_after_provenance k s c key rc :
  cache_after fromisoformat g tx k s c !! key = Some rc ->
  c !! key = Some rc \/ exists i, receipt_at i = Return (Some rc).
Proof.
  revert s c. induction k as [|k IH]; intros s c; simpl; [by left|].
  intros Hl. apply IH in Hl as [Hl|?]; [|by right].
  destruct (receipt_at s) as [[rc'|]|e] eqn:Hr; simpl in Hl; [|by left..].
  destruct (decide (tx = key)) as [->|Hne].
  - rewrite lookup_insert_eq in Hl. injection Hl as ->. right. by exists s.
  - rewrite lookup_insert_ne in Hl by done. by left.
Qed.

(** Every receipt in the final cache was there at the start or was fetched
    during the call; a returned receipt was cached or fetched. *)
Lemma wait_for_confirmation_provenance st :
  let run := wait_for_confirmation fromisoformat cfg g tx st in
  (forall key rc,
      _transaction_cache run.2 !! key = Some rc ->
      _transaction_cache st !! key = Some rc
      \/ exists s, receipt_at s = Return (Some rc))
  /\ (forall rc,
      run.1 = Return rc ->
      _transaction_cache st !! tx = Some rc
      \/ exists s, receipt_at s = Return (Some rc)).
Proof.
  intros run. subst run. unfold wait_for_confirmation.
  set (d := clock (net st) + 1000 * confirmation_timeout cfg).
  assert (
    (forall key rc,
      _transaction_cache (loop d st).2 !! key = Some rc ->
      _transaction_cache st !! key = Some rc
      \/ exists s, receipt_at s = Return (Some rc))
    /\ (forall rc,
      (loop d st).1 = Return rc ->
      _transaction_cache st !! tx = Some rc
      \/ exists s, receipt_at s = Return (Some rc))) as Hloop.
  { destruct (client_confirmation_loop_trace d st) as (k & _ & Hk). cbv zeta in Hk.
    destruct Hk as [[_ ->]|(o & _ & Hv & ->)]; simpl.
    - split; [|discriminate]. intros key rc. apply cache_after_provenance.
    - split.
      + intros key rc.
        destruct (receipt_at (sent (net st) + k)) as [[rc'|]|e] eqn:Hr; simpl.
        * destruct (decide (tx = key)) as [->|Hne].
          -- rewrite lookup_insert_eq. intros [= ->]. right. by eexists.
          -- rewrite lookup_insert_ne by done. apply cache_after_provenance.
        * apply cache_after_provenance.
        * apply cache_after_provenance.
      + intros rc ->. apply client_verdict_Return in Hv as [? _]. right. by eexists. }
  destruct (_transaction_cache st !! tx) as [c|] eqn:Hc; [|exact Hloop].
  destruct (truth (success c) || truthy (error c)); [|exact Hloop]. simpl.
  split; [by left|]. intros rc [= <-]. by left.
Qed.

(** C9, as amended. A receipt is built with the [success] and [error] of the
    ledger's answer, unchecked. So when every answer of the ledger and every
    receipt cached at the start keep [success] and [error] exclusive, the
    receipt returned by [wait_for_confirmation] and every receipt in its
    final cache do too. *)
Theorem receipts_exclusive_when_ledger_is (st : ClientState) :
  (forall s status res,
      reply seen s tx = HttpReply status (Result res) ->
      ~ (j_success res = Some (PyBool true) /\ j_error res <> None)) ->
  (forall key rc, _transaction_cache st !! key = Some rc -> exclusive rc) ->
  let run := wait_for_confirmation fromisoformat cfg g tx st in
  (forall rc, run.1 = Return rc -> exclusive rc)
  /\ (forall key rc, _transaction_cache run.2 !! key = Some rc -> exclusive rc).
Proof.
  intros Hledger Hcache run.
  assert (forall s rc, receipt_at s = Return (Some rc) -> exclusive rc) as Hfetched.
  { intros s rc Hr [Hs He].
    apply receipt_mirrors_reply in Hr as (res & Hrep & Hjs & Hje).
    apply (Hledger s 200 res Hrep). rewrite Hjs, Hje, Hs. done. }
  destruct (wait_for_confirmation_provenance st) as [Hc Hr]. fold run in Hc, Hr.
  split.
  - intros rc Hrc. destruct (Hr rc Hrc) as [?|[s ?]]; eauto.
  - intros key rc Hl. destruct (Hc key rc Hl) as [?|[s ?]]; eauto.
Qed.

(** C10, as amended. [is_transaction_confirmed] never raises. It returns
    [False] when the fetch yields no receipt or fails; when the fetch yields
    a receipt it returns the [success] field of that receipt as the ledger
    sent it, unconverted: [True] exactly when the field is [true], and a
    boolean exactly when the field is one. *)
Theorem is_transaction_confirmed_total (st : ClientState) :
  let fetch := receipt_of_reply fromisoformat (reply seen (sent (net st)) tx) in
  exists v,
    (is_transaction_confirmed fromisoformat g tx st).1 = Return v
    /\ (forall rc, fetch = Return (Some rc) -> v = success rc)
    /\ (fetch = Return None \/ (exists e, fetch = Raise e) -> v = PyBool false)
    /\ (v = PyBool true
        <-> exists rc, fetch = Return (Some rc) /\ success rc = PyBool true)
    /\ (is_bool v = false
        <-> exists rc, fetch = Return (Some rc) /\ is_bool (success rc) = false).
Proof.
  intros fetch. unfold is_transaction_confirmed, get_transaction_receipt, request.
  cbv beta iota zeta. cbn [fst]. fold fetch. destruct fetch as [[rc|]|e]; simpl.
  - exists (success rc). split; [done|]. split; [by intros ? [= <-]|].
    split; [intros [?|[? ?]]; discriminate|]. split.
    + split; [by exists rc|]. intros (? & [= <-] & ?). done.
    + split; [by exists rc|]. intros (? & [= <-] & ?). done.
  - exists (PyBool false). split; [done|]. split; [discriminate|].
    split; [done|]. split; (split; [done|]); intros (? & ? & _); discriminate.
  - exists (PyBool false). split; [done|]. split; [discriminate|].
    split; [done|]. split; (split; [done|]); intros (? & ? & _); discriminate.
Qed.

End Client.

(** C6. In the generic client, a poll that starts before the deadline and
    is answered by "not found" (404), by any other status than 200, by a
    failed request or by none within the timeout of the session is treated
    as still pending: the loop goes on to the next poll with the cache
    untouched; a run made of such polls only ends in [TimeoutError], and
    only once the deadline has passed. In the chain clients a failed request
    is treated the same way; but an answered request, with status 404 or any
    other, ends the wait at once with the [TypeError] of the [await] on the
    [Response] of the synchronous client. *)
Theorem transient_errors_leave_wait_pending
    (fromisoformat : string -> option Z) (cfg : BlockchainConfig)
    (g : Gateway RpcReply) (tx : string) :
  (forall d st,
      clock (net st) < d ->
      transient (reply (session g) (sent (net st)) tx) ->
      confirmation_loop fromisoformat cfg g tx d st
      = confirmation_loop fromisoformat cfg g tx d
          (MkClientState (_transaction_cache st) (next_poll (session g) 2 (net st))))
  /\ (forall st,
      let d := clock (net st) + 1000 * confirmation_timeout cfg in
      no_terminal_cached tx st ->
      (forall j, clock (nth_poll (session g) 2 j (net st)) < d ->
                 transient (reply (session g) (sent (net st) + j) tx)) ->
      exists k,
        d <= clock (nth_poll (session g) 2 k (net st))
        /\ wait_for_confirmation fromisoformat cfg g tx st
           = (Raise (TimeoutError (timeout_message cfg)),
              MkClientState (_transaction_cache st)
                (nth_poll (session g) 2 k (net st))))
  /\ (forall (T : Type) (C : ChainTransaction T) (g' : Gateway (RestReply T))
        tx' confirmations max_wait_ms start n msg,
      clock n - start < max_wait_ms ->
      reply g' (sent n) tx' = RequestFailed msg ->
      ChainClient.confirmation_loop g' tx' confirmations max_wait_ms start n
      = ChainClient.confirmation_loop g' tx' confirmations max_wait_ms start
          (next_poll g' 1 n))
  /\ (forall (T : Type) (C : ChainTransaction T) (g' : Gateway (RestReply T))
        tx' confirmations max_wait_ms start n status_code payload,
      clock n - start < max_wait_ms ->
      reply g' (sent n) tx' = Response status_code payload ->
      ChainClient.confirmation_loop g' tx' confirmations max_wait_ms start n
      = (Raise not_awaitable, (request g' tx' n).2)).
Proof.
  destruct (transient_polls_continue fromisoformat cfg g tx) as [Hstep Hrun].
  split; [exact Hstep|]. split; [exact Hrun|]. split.
  - intros T C g' tx' confirmations max_wait_ms start n msg Hd Hr.
    destruct (ChainProps.chain_poll_step g' tx' confirmations max_wait_ms start n Hd)
      as [Hgo _].
    apply Hgo. by rewrite Hr.
  - intros T C g' tx' confirmations max_wait_ms start n status_code payload Hd Hr.
    destruct (ChainProps.chain_poll_step g' tx' confirmations max_wait_ms start n Hd)
      as [_ Hstop].
    apply Hstop. rewrite Hr. simpl. tauto.
Qed.

End ClientProps.


(** *** Runs of the generic client on concrete ledgers *)

Module ClientScenarios.
Import BlockchainClient Scenarios.

Local Abbreviation wait := (wait_for_confirmation no_timestamps).

(** C2, counterexample. The fetched receipt has [error] set, and the wait
    returns it instead of raising: [success] is looked at first. *)
Lemma receipt_with_error_is_returned :
  let rc := receipt true (Some 10) (Some "boom") in
  let run := wait local (steady contradictory_reply 0) "u1" fresh in
  receipt_at no_timestamps (steady contradictory_reply 0) "u1" 0 = Return (Some rc)
  /\ error rc = Some "boom"
  /\ run.1 = Return rc
  /\ run.1 <> Raise (Exception "Transaction failed: boom").
Proof.
  split; [reflexivity|]. split; [reflexivity|].
  assert ((wait local (steady contradictory_reply 0) "u1" fresh).1
          = Return (receipt true (Some 10) (Some "boom"))) as Hrun
    by (vm_compute; reflexivity).
  split; [exact Hrun|]. cbv zeta. rewrite Hrun. discriminate.
Qed.

(** The amended C2 on a ledger that answers pending twice, then confirmed. *)
Lemma wait_for_confirmation_outcome_witness :
  let g := scripted [pending_reply; pending_reply; confirmed_reply] in
  no_terminal_cached "u1" fresh
  /\ forall rc,
       (wait local g "u1" fresh).1 = Return rc
       <-> exists k,
             quiet_until (session g) 2
               (fun s => pending (receipt_at no_timestamps g "u1" s))
               (0 + 1000 * 300) (MkNet 0 0) k
             /\ clock (nth_poll (session g) 2 k (MkNet 0 0)) < 0 + 1000 * 300
             /\ receipt_at no_timestamps g "u1" (0 + k) = Return (Some rc)
             /\ truth (success rc) = true.
Proof.
  intros g.
  assert (no_terminal_cached "u1" fresh) as Hc by (vm_compute; exact I).
  split; [exact Hc|].
  exact (proj1 (ClientProps.wait_for_confirmation_outcome
                  no_timestamps local g "u1" fresh Hc)).
Defined.

(** C8 on the scenario of the design document. *)
Lemma confirmed_on_third_poll_witness :
  let g := scripted [pending_reply; pending_reply; confirmed_reply] in
  let run := wait local g "u1" fresh in
  run.1 = Return (receipt true (Some 10) None)
  /\ sent (net run.2) = 3%nat
  /\ _transaction_cache run.2 !! "u1" = Some (receipt true (Some 10) None).
Proof.
  intros g.
  apply (ClientProps.confirmed_on_third_poll no_timestamps local g "u1" fresh
           (receipt true (Some 10) None)).
  - vm_compute. exact I.
  - vm_compute. split; reflexivity.
  - vm_compute. split; reflexivity.
  - reflexivity.
  - reflexivity.
  - reflexivity.
  - vm_compute. reflexivity.
Defined.

(** C7, counterexample. Every fetch takes 100 s, well within the timeout
    of the session, and finds nothing. The third one starts at 204 s, before
    the 300 s deadline, and is over at 304 s; the call ends at 306 s, 6 s
    after the deadline and so more than one poll interval late, after three
    polls. *)
Lemma slow_fetch_overshoots_deadline :
  let run := wait local (steady not_found 100000) "u1" fresh in
  let deadline := 0 + 1000 * confirmation_timeout local in
  (100000 < total_timeout)%N
  /\ run.1 = Raise (TimeoutError "Transaction confirmation timed out after 300s")
  /\ net run.2 = MkNet 306000 3
  /\ deadline + 2000 < clock (net run.2).
Proof. vm_compute. repeat split; reflexivity. Qed.

(** The amended C7 on a ledger that never knows the transaction, with a
    timeout of 5 s. *)
Lemma timeout_within_bound_witness :
  let g := steady not_found 0 in
  exists k,
    let run := wait impatient g "u1" fresh in
    run.1 = Raise (TimeoutError (timeout_message impatient))
    /\ net run.2 = nth_poll (session g) 2 k (MkNet 0 0)
    /\ 0 + 1000 * 5 <= clock (net run.2)
    /\ Z.of_nat k <= Z.max 0 ((5 + 1) / 2)
    /\ (k = 0%nat
        \/ clock (net run.2)
           < 0 + 1000 * 5 + 2000 + Z.of_N (latency (session g) (0 + k - 1)))
    /\ (forall s, (latency (session g) s <= total_timeout)%N).
Proof.
  intros g.
  apply (ClientProps.timeout_within_bound no_timestamps impatient g "u1" fresh).
  - vm_compute. exact I.
  - intros j _. exact I.
Defined.

(** C3. A failed receipt is raised when it is first fetched and returned
    when it is found in the cache: the second call does not fail. *)
Lemma failed_receipt_returned_from_cache :
  let rc := receipt false None (Some "boom") in
  let first := wait local (steady failed_reply 0) "u1" fresh in
  let second := wait local (steady failed_reply 0) "u1" first.2 in
  first.1 = Raise (Exception "Transaction failed: boom")
  /\ _transaction_cache first.2 !! "u1" = Some rc
  /\ second.1 = Return rc
  /\ net second.2 = net first.2.
Proof. vm_compute. repeat split; reflexivity. Qed.

(** C9, counterexample. The ledger answers with [success] true and an
    error; the receipt built from it, returned and cached, has both. *)
Lemma contradictory_receipt_is_cached :
  let rc := receipt true (Some 10) (Some "boom") in
  let run := wait local (steady contradictory_reply 0) "u1" fresh in
  run.1 = Return rc
  /\ _transaction_cache run.2 !! "u1" = Some rc
  /\ ~ exclusive rc.
Proof.
  split; [vm_compute; reflexivity|]. split; [vm_compute; reflexivity|].
  intros Hex. apply Hex. split; [reflexivity|discriminate].
Qed.

(** The amended C9 on a ledger that always answers confirmed. *)
Lemma receipts_exclusive_when_ledger_is_witness :
  let run := wait local (steady confirmed_reply 0) "u1" fresh in
  (forall rc, run.1 = Return rc -> exclusive rc)
  /\ (forall key rc, _transaction_cache run.2 !! key = Some rc -> exclusive rc).
Proof.
  apply (ClientProps.receipts_exclusive_when_ledger_is
           no_timestamps local (steady confirmed_reply 0) "u1" fresh).
  - intros s status res [= <- <-] [_ Herr]. by apply Herr.
  - intros key rc Hl. simpl in Hl. by rewrite lookup_empty in Hl.
Defined.

(** C10, counterexample. The ledger sends the string ["false"] under
    [success]; [is_transaction_confirmed] hands that string back: no
    boolean, and a truthy value. *)
Lemma unconverted_success_is_returned :
  let answer :=
    HttpReply 200
      (Result (MkReceiptJson (Some "u1") (Some "0xabc") (Some (PyStr "false"))
                 None None None None)) in
  let run := is_transaction_confirmed no_timestamps (steady answer 0) "u1" fresh in
  run.1 = Return (PyStr "false")
  /\ is_bool (PyStr "false") = false
  /\ truth (PyStr "false") = true
  /\ (forall b : bool, run.1 <> Return (PyBool b)).
Proof.
  assert ((is_transaction_confirmed no_timestamps
             (steady
                (HttpReply 200
                   (Result (MkReceiptJson (Some "u1") (Some "0xabc")
                              (Some (PyStr "false")) None None None None))) 0)
             "u1" fresh).1 = Return (PyStr "false")) as Hrun
    by (vm_compute; reflexivity).
  split; [exact Hrun|]. split; [reflexivity|]. split; [reflexivity|].
  intros b. cbv zeta. rewrite Hrun. discriminate.
Qed.

(** C6 on the chat chain: the ledger answers the first poll with 404, and
    the wait ends there with [TypeError] instead of going on to poll. *)
Lemma transient_errors_leave_wait_pending_witness :
  let ledger : Gateway (RestReply ChatChain.ChatChainTransaction) :=
    steady (Response 404 BadJson) 0 in
  ChatChain.wait_for_confirmation ledger "tx1" 6 30000 (MkNet 0 0)
  = (Raise not_awaitable, MkNet 0 1).
Proof.
  intros ledger.
  apply (proj2 (proj2 (proj2
           (ClientProps.transient_errors_leave_wait_pending no_timestamps local
              (steady not_found 0) "u1")))
           ChatChain.ChatChainTransaction ChatChain.chain_transaction ledger "tx1"
           6 30000 0 (MkNet 0 0) 404 BadJson).
  - reflexivity.
  - reflexivity.
Defined.

End ClientScenarios.


(** * Further properties of the polling loops *)

Module ClientExtras.
Import BlockchainClient ClientProps ClientViews.

Section Client.

Variable fromisoformat : string -> option Z.
Variable cfg : BlockchainConfig.
Variable g : Gateway RpcReply.
Variable tx : string.

Local Abbreviation seen := (session g).
Local Abbreviation receipt_at := (BlockchainClient.receipt_at fromisoformat g tx).
Local Abbreviation wait := (wait_for_confirmation fromisoformat cfg g tx).
Local Abbreviation idle := (fun s => pending (receipt_at s)).

(** The iterations of the loop write the cache at the key [tx] only. *)
Lemma cache_after_frame k s c key :
  key <> tx ->
  cache_after fromisoformat g tx k s c !! key = c !! key.
Proof.
  intros Hne. revert s c. induction k as [|k IH]; intros s c; simpl; [done|].
  rewrite IH. destruct (receipt_at s) as [[rc|]|e]; simpl; [|done..].
  by rewrite lookup_insert_ne.
Qed.

(** X1. [wait_for_confirmation] changes the transaction cache at the key of
    the awaited transaction only: every other entry is as before the call. *)
Theorem wait_for_confirmation_cache_frame (st : ClientState) (key : string) :
  key <> tx ->
  _transaction_cache (wait st).2 !! key = _transaction_cache st !! key.
Proof.
  intros Hne. unfold wait_for_confirmation.
  set (d := clock (net st) + 1000 * confirmation_timeout cfg).
  assert (_transaction_cache (confirmation_loop fromisoformat cfg g tx d st).2 !! key
          = _transaction_cache st !! key) as Hloop.
  { destruct (client_confirmation_loop_trace fromisoformat cfg g tx d st)
      as (k & _ & Hk). cbv zeta in Hk.
    destruct Hk as [[_ ->]|(o & _ & _ & ->)]; simpl.
    - by apply cache_after_frame.
    - destruct (receipt_at (sent (net st) + k)) as [[rc|]|e]; simpl.
      + rewrite lookup_insert_ne by done. by apply cache_after_frame.
      + by apply cache_after_frame.
      + by apply cache_after_frame. }
  destruct (_transaction_cache st !! tx) as [c|]; [|exact Hloop].
  destruct (truth (success c) || truthy (error c)); [done|exact Hloop].
Qed.

(** A receipt returned by the loop was fetched with a truthy [success] and
    is the cache entry of [tx] when the loop ends. *)
Lemma confirmation_loop_return d st rc :
  (confirmation_loop fromisoformat cfg g tx d st).1 = Return rc ->
  truth (success rc) = true
  /\ _transaction_cache (confirmation_loop fromisoformat cfg g tx d st).2 !! tx
     = Some rc.
Proof.
  destruct (client_confirmation_loop_trace fromisoformat cfg g tx d st)
    as (k & _ & Hk). cbv zeta in Hk.
  destruct Hk as [[_ ->]|(o & _ & Hv & ->)]; simpl; [discriminate|].
  intros ->. apply client_verdict_Return in Hv as [-> Hs]. simpl.
  by rewrite lookup_insert_eq.
Qed.

(** X2. Cache idempotence for confirmed transactions: once a call has
    returned a receipt, a later call in any state that still holds that
    cache entry returns the same receipt, sends no request and changes
    nothing. *)
Theorem confirmed_receipt_replayed (st st2 : ClientState) (rc : TransactionReceipt) :
  (wait st).1 = Return rc ->
  _transaction_cache st2 !! tx = _transaction_cache (wait st).2 !! tx ->
  wait st2 = (Return rc, st2).
Proof.
  unfold wait_for_confirmation at 1 2.
  set (d := clock (net st) + 1000 * confirmation_timeout cfg).
  assert ((confirmation_loop fromisoformat cfg g tx d st).1 = Return rc ->
          _transaction_cache st2 !! tx
          = _transaction_cache (confirmation_loop fromisoformat cfg g tx d st).2 !! tx ->
          wait st2 = (Return rc, st2)) as Hloop.
  { intros Hr Hc. apply confirmation_loop_return in Hr as [Hs Hl].
    rewrite Hl in Hc.
    apply (wait_for_confirmation_cached fromisoformat cfg g tx st2 rc Hc).
    by rewrite Hs. }
  destruct (_transaction_cache st !! tx) as [c|] eqn:Hc; [|exact Hloop].
  destruct (truth (success c) || truthy (error c)) eqn:Ht; [|exact Hloop].
  simpl. intros [= <-] Hc2. rewrite Hc in Hc2.
  by apply (wait_for_confirmation_cached fromisoformat cfg g tx st2 c).
Qed.

(** X3. Request budget: whatever the ledger answers, one call of
    [wait_for_confirmation] sends at most [ceil(timeout / 2)] receipt
    requests, and none when the timeout is zero or negative. *)
Theorem wait_for_confirmation_request_budget (st : ClientState) :
  Z.of_nat (sent (net (wait st).2)) - Z.of_nat (sent (net st))
  <= Z.max 0 ((confirmation_timeout cfg + 1) / 2).
Proof.
  unfold wait_for_confirmation.
  set (d := clock (net st) + 1000 * confirmation_timeout cfg).
  assert (Z.of_nat (sent (net (confirmation_loop fromisoformat cfg g tx d st).2))
          - Z.of_nat (sent (net st))
          <= Z.max 0 ((confirmation_timeout cfg + 1) / 2)) as Hloop.
  { destruct (client_confirmation_loop_trace fromisoformat cfg g tx d st)
      as (k & Hq & Hk). cbv zeta in Hk.
    destruct Hk as [[_ ->]|(o & Hd & _ & ->)]; simpl.
    - rewrite sent_nth_poll.
      destruct (quiet_until_bound fromisoformat g tx (net st) k _ Hq) as [Hb _].
      lia.
    - rewrite sent_nth_poll.
      pose proof (clock_nth_poll_lower seen 2 k (net st)) as Hlow.
      etransitivity; [|apply Z.le_max_r].
      apply Z.div_le_lower_bound; [lia|]. subst d. lia. }
  destruct (_transaction_cache st !! tx) as [c|]; [|exact Hloop].
  destruct (truth (success c) || truthy (error c)); [simpl; lia|exact Hloop].
Qed.

(** X4. [get_transaction_receipt] never raises and sends exactly one
    request. It yields a receipt exactly when the answer has status 200 and
    a result object carrying [tx_id], [tx_hash] and [success] with a
    timestamp that is absent or parses; [block_height], [block_hash] and
    [error] are optional and copied. In every other case (missing key,
    unparsable timestamp, other status, failed request, no answer within
    the timeout of the session) it yields [None]. *)
Theorem get_transaction_receipt_requirements (st : ClientState) :
  let run := get_transaction_receipt fromisoformat g tx st in
  let r := reply seen (sent (net st)) tx in
  (forall rc, run.1 = Return (Some rc) <-> well_formed_answer fromisoformat r rc)
  /\ ((forall rc, ~ well_formed_answer fromisoformat r rc) -> run.1 = Return None)
  /\ sent (net run.2) = S (sent (net st))
  /\ _transaction_cache run.2 = _transaction_cache st.
Proof.
  intros run r. subst run. unfold get_transaction_receipt. simpl. fold r.
  assert (forall rc,
    try_except (receipt_of_reply fromisoformat r) (fun _ => Return None)
    = Return (Some rc) <-> well_formed_answer fromisoformat r rc) as Hiff.
  { intros rc. unfold well_formed_answer, receipt_of_reply.
    destruct r as [msg| |status [| |res]]; simpl.
    - split; [done|]. intros (? & ? & ? & _). done.
    - split; [done|]. intros (? & ? & ? & _). done.
    - case_bool_decide; simpl; (split; [done|]); intros (? & ? & ? & _); done.
    - case_bool_decide; simpl; (split; [done|]); intros (? & ? & ? & _); done.
    - case_bool_decide as Hst; simpl.
      { split; [done|]. intros (? & ? & [= -> _] & _). done. }
      subst status.
      destruct (j_tx_id res) as [i|] eqn:Hi; simpl.
      2:{ split; [done|]. intros (? & ? & [= <-] & Hi' & _). congruence. }
      destruct (j_tx_hash res) as [h|] eqn:Hh; simpl.
      2:{ split; [done|]. intros (? & ? & [= <-] & _ & Hh' & _). congruence. }
      destruct (j_success res) as [b|] eqn:Hb; simpl.
      2:{ split; [done|]. intros (? & ? & [= <-] & _ & _ & Hb' & _). congruence. }
      destruct (parse_timestamp fromisoformat (j_timestamp res)) as [t|e] eqn:Ht;
        simpl.
      2:{ split; [done|]. intros (? & ? & [= <-] & _ & _ & _ & Ht' & _). congruence. }
      split.
      + intros [= <-]. exists res, t. simpl. done.
      + intros (res' & t' & [= <-] & Hi' & Hh' & Hb' & Ht' & ->). simpl in *.
        congruence. }
  split; [exact Hiff|]. split; [|done].
  intros Hnone.
  destruct (receipt_at_returns fromisoformat g tx (sent (net st))) as [[rc|] Hr];
    unfold BlockchainClient.receipt_at in Hr; fold r in Hr; [|done].
  apply Hiff in Hr. by destruct (Hnone rc).
Qed.

End Client.

(** X5. With a timeout of zero or less the three waits send no request and
    raise [TimeoutError] at once, leaving the state as it was (for the
    generic client: unless a terminal receipt is cached). *)
Theorem no_poll_without_time :
  (forall fromisoformat cfg g tx st,
      confirmation_timeout cfg <= 0 ->
      no_terminal_cached tx st ->
      wait_for_confirmation fromisoformat cfg g tx st
      = (Raise (TimeoutError (timeout_message cfg)), st))
  /\ (forall (T : Type) (C : ChainTransaction T) (g : Gateway (RestReply T))
        tx confirmations max_wait_ms n,
      max_wait_ms <= 0 ->
      ChainClient.wait_for_confirmation g tx confirmations max_wait_ms n
      = (Raise (TimeoutError (ChainClient.timeout_message tx max_wait_ms)), n))
  /\ (forall g bridge_tx_id max_wait_ms n,
      max_wait_ms <= 0 ->
      CrossChainBridge.wait_for_atomic_completion g bridge_tx_id max_wait_ms n
      = (Raise (TimeoutError
                  (CrossChainBridge.timeout_message bridge_tx_id max_wait_ms)), n)).
Proof.
  split; [|split].
  - intros fromisoformat cfg g tx st Ht Hc.
    rewrite (wait_for_confirmation_uncached fromisoformat cfg g tx st Hc).
    rewrite client_confirmation_loop_unfold. by rewrite decide_False by lia.
  - intros T C g tx confirmations max_wait_ms n Ht.
    unfold ChainClient.wait_for_confirmation.
    rewrite ChainProps.chain_confirmation_loop_unfold.
    by rewrite decide_False by lia.
  - intros g bridge_tx_id max_wait_ms n Ht.
    unfold CrossChainBridge.wait_for_atomic_completion.
    rewrite BridgeProps.completion_loop_unfold.
    by rewrite decide_False by lia.
Qed.

End ClientExtras.


Module ChainExtras.
Import ChainClient ChainProps.

Section Chain.

Context {T : Type} `{ChainTransaction T}.
Variable g : Gateway (RestReply T).
Variable tx : string.
Variable confirmations : Z.
Variable max_wait_ms : Z.

Local Abbreviation idle := (fun s => unconfirmed confirmations (answer_at g tx s)).
Local Abbreviation silent := (fun s => unanswered (reply g s tx)).
Local Abbreviation wait := (wait_for_confirmation g tx confirmations max_wait_ms).

(** X6. Request budget on a confirmation-count ledger: one call of
    [wait_for_confirmation] sends at most [ceil(max_wait_ms / 1000)]
    requests, whatever the ledger answers. *)
Theorem chain_wait_request_budget (n : Net) :
  Z.of_nat (sent (wait n).2) - Z.of_nat (sent n)
  <= Z.max 0 ((max_wait_ms + 999) / 1000).
Proof.
  unfold wait_for_confirmation.
  destruct (chain_confirmation_loop_trace g tx confirmations max_wait_ms (clock n) n)
    as (k & Hq & Hk).
  pose proof (clock_nth_poll_lower g 1 k n) as Hlow.
  destruct Hk as [[_ ->]|(o & Hd & _ & ->)]; simpl; rewrite sent_nth_poll.
  - destruct k as [|k]; [lia|].
    destruct (Hq k) as [Hd _]; [lia|].
    pose proof (clock_nth_poll_lower g 1 k n) as Hlow'.
    etransitivity; [|apply Z.le_max_r].
    apply Z.div_le_lower_bound; lia.
  - etransitivity; [|apply Z.le_max_r].
    apply Z.div_le_lower_bound; lia.
Qed.

(** X7. Requests that fail are polled through. The wait raises
    [TimeoutError] exactly when no request is answered before the deadline
    has passed: every poll that starts before the deadline fails with an
    [httpx.HTTPError], which [get_transaction] turns into [None], and the
    loop sleeps one second after each. When every request fails, the call
    ends in the state in which the first poll at or after the deadline
    would start. *)
Theorem failed_requests_polled_to_deadline (n : Net) :
  let d := clock n + max_wait_ms in
  (forall msg,
      (wait n).1 = Raise (TimeoutError msg)
      <-> msg = timeout_message tx max_wait_ms
          /\ exists k, quiet_until g 1 silent d n k /\ d <= clock (nth_poll g 1 k n))
  /\ ((forall j, clock (nth_poll g 1 j n) < d -> silent (sent n + j)%nat) ->
      exists k,
        (forall i, (i < k)%nat -> clock (nth_poll g 1 i n) < d)
        /\ d <= clock (nth_poll g 1 k n)
        /\ wait n = (Raise (TimeoutError (timeout_message tx max_wait_ms)),
                     nth_poll g 1 k n)).
Proof.
  intros d. unfold wait_for_confirmation.
  destruct (chain_confirmation_loop_run g tx confirmations max_wait_ms (clock n) n)
    as (k & Hq & Hk). fold d in Hq, Hk.
  split.
  - intros msg. split.
    + destruct Hk as [[Hd ->]|(_ & _ & ->)]; [|discriminate].
      intros [= <-]. split; [done|]. by exists k.
    + intros (-> & k' & Hq' & Hd').
      assert (k' = k) as ->.
      { apply (quiet_until_unique g 1 silent d n); try done; [by left|].
        destruct Hk as [[? _]|(_ & ? & _)]; [by left|by right]. }
      destruct Hk as [[_ ->]|(? & _)]; [done|lia].
  - intros Hall. exists k. destruct Hk as [[Hd ->]|(Hd & Hu & _)].
    + split; [|done]. intros i Hi. by destruct (Hq i Hi).
    + destruct Hu. by apply Hall.
Qed.

End Chain.
End ChainExtras.

Module BridgeExtras.
Import CrossChainBridge BridgeProps.

Section Bridge.

Variable g : Gateway (RestReply CrossChainTransaction).
Variable bridge_tx_id : string.
Variable max_wait_ms : Z.

(** X9. Request budget of the bridge: one call of
    [wait_for_atomic_completion] sends at most [ceil(max_wait_ms / 1000)]
    status requests, and the clock never runs backwards during the call. *)
Theorem atomic_completion_request_budget (n : Net) :
  let run := wait_for_atomic_completion g bridge_tx_id max_wait_ms n in
  Z.of_nat (sent run.2) - Z.of_nat (sent n)
  <= Z.max 0 ((max_wait_ms + 999) / 1000)
  /\ clock n <= clock run.2.
Proof.
  intros run. subst run. unfold wait_for_atomic_completion.
  destruct (completion_loop_trace g bridge_tx_id max_wait_ms (clock n) n)
    as (k & Hq & Hk).
  pose proof (clock_nth_poll_lower g 1 k n) as Hlow.
  destruct Hk as [[_ ->]|(o & Hd & _ & ->)]; simpl; rewrite sent_nth_poll.
  - split; [|lia]. destruct k as [|k]; [lia|].
    destruct (Hq k) as [Hd _]; [lia|].
    pose proof (clock_nth_poll_lower g 1 k n) as Hlow'.
    etransitivity; [|apply Z.le_max_r].
    apply Z.div_le_lower_bound; lia.
  - split; [|lia]. etransitivity; [|apply Z.le_max_r].
    apply Z.div_le_lower_bound; lia.
Qed.

End Bridge.
End BridgeExtras.


(** * tests/python/integration_test.py: the mock ledger *)

Module MockProps.
Import MockBlockchain.

Lemma dict_get_set_eq {V} (k : string) (v : V) d :
  dict_get k (dict_set k v d) = Some v.
Proof.
  induction d as [|[k' v'] d IH]; simpl.
  - by rewrite decide_True.
  - destruct (decide (k = k')) as [->|Hne]; simpl.
    + by rewrite decide_True.
    + by rewrite decide_False.
Qed.

Lemma dict_get_set_ne {V} (k k0 : string) (v : V) d :
  k0 <> k -> dict_get k0 (dict_set k v d) = dict_get k0 d.
Proof.
  intros Hne. induction d as [|[k' v'] d IH]; simpl.
  - by rewrite decide_False.
  - destruct (decide (k = k')) as [->|Hne']; simpl.
    + by rewrite !decide_False.
    + destruct (decide (k0 = k')); [done|]. exact IH.
Qed.

(** Setting an unknown key appends the entry. *)
Lemma dict_set_fresh {V} (k : string) (v : V) d :
  dict_get k d = None -> dict_set k v d = d ++ [(k, v)].
Proof.
  induction d as [|[k' v'] d IH]; simpl; [done|].
  destruct (decide (k = k')); [done|]. intros Hd. by rewrite IH.
Qed.

Lemma dict_get_fmap {V} (f : V -> V) k (d : list (string * V)) :
  dict_get k (prod_map id f <$> d) = f <$> dict_get k d.
Proof.
  induction d as [|[k' v'] d IH]; simpl; [done|].
  destruct (decide (k = k')); [done|]. exact IH.
Qed.

(** X10. [advance_blocks(count)] adds [count] to the confirmations of every
    transaction whose status is [CONFIRMED], leaves every other transaction
    and the set of known ids as they are, and moves the current block by
    [count]. *)
Theorem advance_blocks_confirmations (count : Z) (bc : MockBlockchainPython)
    (id : string) :
  get_current_block (advance_blocks count bc) = get_current_block bc + count
  /\ (get_transaction id bc = None ->
      get_transaction id (advance_blocks count bc) = None)
  /\ (forall tx,
        get_transaction id bc = Some tx ->
        exists tx',
          get_transaction id (advance_blocks count bc) = Some tx'
          /\ confirmations tx'
             = (if decide (status tx = CONFIRMED)
                then confirmations tx + count else confirmations tx)
          /\ (tx_id tx', tx_type tx', sender tx', data tx', timestamp tx',
              status tx', block_height tx')
             = (tx_id tx, tx_type tx, sender tx, data tx, timestamp tx,
                status tx, block_height tx)).
Proof.
  unfold get_transaction, advance_blocks, get_current_block. simpl.
  rewrite dict_get_fmap. split; [done|]. split.
  - by intros ->.
  - intros tx ->. simpl. exists (confirm_more count tx). split; [done|].
    unfold confirm_more. by destruct (decide (status tx = CONFIRMED)).
Qed.

Lemma confirm_more_add a b tx :
  confirm_more a (confirm_more b tx) = confirm_more (b + a) tx.
Proof.
  unfold confirm_more. destruct (decide (status tx = CONFIRMED)) as [Hs|Hs]; simpl.
  - rewrite decide_True by done. f_equal. lia.
  - by rewrite decide_False.
Qed.

Lemma confirm_more_0 tx : confirm_more 0 tx = tx.
Proof.
  unfold confirm_more. destruct (decide _); [|done].
  destruct tx; simpl. f_equal. lia.
Qed.

(** X11. Advancing is additive: advancing by [b] blocks and then by [a]
    is advancing by [b + a] at once, and advancing by no block changes
    nothing. *)
Theorem advance_blocks_additive (a b : Z) (bc : MockBlockchainPython) :
  advance_blocks a (advance_blocks b bc) = advance_blocks (b + a) bc
  /\ advance_blocks 0 bc = bc.
Proof.
  unfold advance_blocks. simpl. split.
  - f_equal; [|lia]. rewrite <- list_fmap_compose. apply list_fmap_ext.
    intros i [k tx] _. simpl. by rewrite confirm_more_add.
  - destruct bc as [txs blk thr]. simpl. f_equal; [|lia].
    rewrite <- (list_fmap_id txs) at 2. apply list_fmap_ext.
    intros i [k tx] _. simpl. by rewrite confirm_more_0.
Qed.

(** X12. A submitted transaction can be fetched under the id it was given:
    it is [CONFIRMED], has the ledger's confirmation threshold as its
    confirmations and the current block as its height; the transactions
    stored under other ids are not touched. *)
Theorem submit_then_get (uuid : string) (ty : TransactionType) (s : string)
    (d : gmap string string) (bc : MockBlockchainPython) :
  let run := submit_transaction uuid ty s d bc in
  run.1 = uuid
  /\ get_transaction uuid run.2
     = Some (MkTransaction uuid ty s d "2025-10-29T10:00:00Z" CONFIRMED
               (confirmation_threshold bc) (current_block bc))
  /\ (forall id, id <> uuid -> get_transaction id run.2 = get_transaction id bc)
  /\ get_current_block run.2 = get_current_block bc.
Proof.
  unfold submit_transaction, get_transaction. simpl. split; [done|].
  split; [apply dict_get_set_eq|]. split; [|done].
  intros id Hne. by apply dict_get_set_ne.
Qed.

(** X13. Submitting under an id that is not in use appends the transaction
    to the history: the list of a sender's transactions grows by exactly
    that transaction, at its end, when the sender is the submitter, and is
    unchanged for every other sender. *)
Theorem submit_extends_sender_history (uuid : string) (ty : TransactionType)
    (s s' : string) (d : gmap string string) (bc : MockBlockchainPython) :
  get_transaction uuid bc = None ->
  get_transactions_by_sender s' (submit_transaction uuid ty s d bc).2
  = get_transactions_by_sender s' bc
    ++ (if decide (s = s')
        then [MkTransaction uuid ty s d "2025-10-29T10:00:00Z" CONFIRMED
                (confirmation_threshold bc) (current_block bc)]
        else []).
Proof.
  unfold get_transaction, get_transactions_by_sender, submit_transaction, values.
  simpl. intros Hfresh. rewrite (dict_set_fresh _ _ _ Hfresh).
  rewrite fmap_app, filter_app. by f_equal.
Qed.

(** The history of a sender on the ledger of the second test: alice
    submits twice and bob once, each under a new id. *)
Lemma submit_extends_sender_history_witness :
  let bc := (submit_transaction "id-1" REGISTER_USER "alice" ∅ (init 6)).2 in
  get_transactions_by_sender "bob"
    (submit_transaction "id-2" REGISTER_USER "bob" ∅ bc).2
  = get_transactions_by_sender "bob" bc
    ++ (if decide ("bob" = "bob")
        then [MkTransaction "id-2" REGISTER_USER "bob" ∅ "2025-10-29T10:00:00Z"
                CONFIRMED (confirmation_threshold bc) (current_block bc)]
        else []).
Proof.
  intros bc.
  apply (submit_extends_sender_history "id-2" REGISTER_USER "bob" "bob" ∅ bc).
  reflexivity.
Defined.

End MockProps.


(** * crypto/keypair.py: hexadecimal strings *)

Module HexProps.
Import Hex.

Lemma fromhex_byte (b : Byte.byte) (s : string) :
  fromhex (String (hex_digit (Byte.to_N b / 16))
             (String (hex_digit (Byte.to_N b mod 16)) s))
  = (bs ← fromhex s; Return (b :: bs)).
Proof. destruct b; reflexivity. Qed.

Lemma fromhex_hex (data : list Byte.byte) :
  hex_to_bytes (bytes_to_hex data) = Return data.
Proof.
  unfold hex_to_bytes, bytes_to_hex.
  induction data as [|b bs IH]; [done|].
  cbn [hex]. rewrite fromhex_byte, IH. done.
Qed.

(** X14. Hexadecimal round trip: decoding the hexadecimal form of a byte
    string gives the byte string back ([hex_to_bytes(bytes_to_hex(b)) == b]),
    and the hexadecimal form has two characters per byte. *)
Theorem hex_round_trip (data : list Byte.byte) :
  hex_to_bytes (bytes_to_hex data) = Return data
  /\ String.length (bytes_to_hex data) = (2 * length data)%nat.
Proof.
  split; [apply fromhex_hex|].
  unfold bytes_to_hex.
  induction data as [|b bs IH]; [done|].
  cbn [hex String.length length]. rewrite IH. lia.
Qed.

(** X15. A key pair survives export and import:
    [KeyPair.from_dict(kp.to_dict())] has the keys of [kp]. *)
Theorem key_pair_round_trip (kp : KeyPair) :
  from_dict (to_dict kp) = Return kp.
Proof.
  unfold from_dict, to_dict, public_key_hex, private_key_hex.
  rewrite lookup_insert_eq. cbn [subscript mbind result_bind].
  pose proof (fromhex_hex (public_key kp)) as Hpub.
  pose proof (fromhex_hex (private_key kp)) as Hpriv.
  unfold hex_to_bytes, bytes_to_hex in Hpub, Hpriv.
  rewrite Hpub. cbn [mbind result_bind].
  rewrite lookup_insert_ne by done. rewrite lookup_singleton_eq.
  cbn [subscript mbind result_bind]. rewrite Hpriv. cbn [mbind result_bind].
  by destruct kp.
Qed.

End HexProps.


(** * transaction.py: the wire form *)

Module TransactionsProps.
Import Transactions.

Section ToDict.

Variable isoformat : Z -> string.

Lemma relay_node_id_key (dm : SendDirectMessageTx) :
  SendDirectMessageTx_to_dict isoformat dm !! "relay_node_id"
  = (if truthy (dm_relay_node_id dm) then JStr <$> dm_relay_node_id dm else None).
Proof.
  unfold SendDirectMessageTx_to_dict.
  destruct (dm_relay_node_id dm) as [[|a r]|];
    cbn [truthy default fmap option_fmap option_map];
    first [reflexivity | rewrite lookup_insert_eq; reflexivity].
Qed.

(** X16. The optional field of a direct message and of a channel creation
    is sent exactly when it is a non-empty string: [None] and the empty
    string both leave the key out; the six other keys are always sent. *)
Theorem optional_key_sent_when_truthy
    (dm : SendDirectMessageTx) (cc : CreateChannelTx) :
  SendDirectMessageTx_to_dict isoformat dm !! "relay_node_id"
  = (if truthy (dm_relay_node_id dm) then JStr <$> dm_relay_node_id dm else None)
  /\ CreateChannelTx_to_dict isoformat cc !! "token_requirement"
     = (if truthy (cc_token_requirement cc)
        then JStr <$> cc_token_requirement cc else None)
  /\ dom (SendDirectMessageTx_to_dict isoformat dm)
     = {[ "message_id"; "sender_id"; "recipient_id"; "content_hash";
          "payload_size"; "timestamp" ]}
       ∪ (if truthy (dm_relay_node_id dm) then {[ "relay_node_id" ]} else ∅)
  /\ dom (CreateChannelTx_to_dict isoformat cc)
     = {[ "channel_id"; "name"; "description"; "creator_id"; "visibility";
          "timestamp" ]}
       ∪ (if truthy (cc_token_requirement cc) then {[ "token_requirement" ]} else ∅).
Proof.
  unfold SendDirectMessageTx_to_dict, CreateChannelTx_to_dict.
  destruct (dm_relay_node_id dm) as [[|a r]|], (cc_token_requirement cc) as [[|b t]|];
    cbn [truthy default fmap option_fmap option_map].
  all: repeat split.
  all: try (rewrite lookup_insert_eq; reflexivity).
  all: try reflexivity.
  all: rewrite ?dom_insert_L, ?dom_singleton_L; set_solver.
Qed.

(** Read one key on both sides of an equation between wire forms. *)
Lemma lookup_both {V} (m1 m2 : gmap string V) (k : string) :
  m1 = m2 -> m1 !! k = m2 !! k.
Proof. by intros ->. Qed.

(** X17. The wire form determines the transaction: when [isoformat] tells
    any two instants apart, two registrations, or two channel posts, with
    the same dictionary are the same transaction; two direct messages with
    the same dictionary agree on every field, on the relay node too unless
    both relay nodes are empty or missing. *)
Theorem to_dict_injective :
  (forall a b, isoformat a = isoformat b -> a = b) ->
  (forall t1 t2 : RegisterUserTx,
      RegisterUserTx_to_dict isoformat t1 = RegisterUserTx_to_dict isoformat t2 ->
      t1 = t2)
  /\ (forall t1 t2 : PostToChannelTx,
      PostToChannelTx_to_dict isoformat t1 = PostToChannelTx_to_dict isoformat t2 ->
      t1 = t2)
  /\ (forall t1 t2 : SendDirectMessageTx,
      SendDirectMessageTx_to_dict isoformat t1
      = SendDirectMessageTx_to_dict isoformat t2 ->
      (dm_message_id t1, dm_sender_id t1, dm_recipient_id t1, dm_content_hash t1,
       dm_payload_size t1, dm_timestamp t1)
      = (dm_message_id t2, dm_sender_id t2, dm_recipient_id t2, dm_content_hash t2,
         dm_payload_size t2, dm_timestamp t2)
      /\ (truthy (dm_relay_node_id t1) = truthy (dm_relay_node_id t2))
      /\ (truthy (dm_relay_node_id t1) = true ->
          dm_relay_node_id t1 = dm_relay_node_id t2)).
Proof.
  intros Hinj. split; [|split].
  - intros [i1 u1 p1 ts1 r1] [i2 u2 p2 ts2 r2] Heq.
    unfold RegisterUserTx_to_dict in Heq. simpl in Heq.
    pose proof (lookup_both _ _ "user_id" Heq) as H1.
    pose proof (lookup_both _ _ "username" Heq) as H2.
    pose proof (lookup_both _ _ "public_key" Heq) as H3.
    pose proof (lookup_both _ _ "timestamp" Heq) as H4.
    pose proof (lookup_both _ _ "initial_reputation" Heq) as H5.
    clear Heq. vm_compute in H1, H2, H3, H5.
    injection H1 as ->. injection H2 as ->. injection H3 as ->. injection H5 as ->.
    assert (Some (JStr (isoformat ts1)) = Some (JStr (isoformat ts2))) as H4'
      by exact H4.
    injection H4' as H4'. apply Hinj in H4' as ->. done.
  - intros [m1 c1 s1 h1 z1 ts1] [m2 c2 s2 h2 z2 ts2] Heq.
    unfold PostToChannelTx_to_dict in Heq. simpl in Heq.
    pose proof (lookup_both _ _ "message_id" Heq) as H1.
    pose proof (lookup_both _ _ "channel_id" Heq) as H2.
    pose proof (lookup_both _ _ "sender_id" Heq) as H3.
    pose proof (lookup_both _ _ "content_hash" Heq) as H4.
    pose proof (lookup_both _ _ "payload_size" Heq) as H5.
    pose proof (lookup_both _ _ "timestamp" Heq) as H6.
    clear Heq. vm_compute in H1, H2, H3, H4, H5.
    injection H1 as ->. injection H2 as ->. injection H3 as ->.
    injection H4 as ->. injection H5 as ->.
    assert (Some (JStr (isoformat ts1)) = Some (JStr (isoformat ts2))) as H6'
      by exact H6.
    injection H6' as H6'. apply Hinj in H6' as ->. done.
  - intros [m1 s1 c1 h1 z1 ts1 r1] [m2 s2 c2 h2 z2 ts2 r2] Heq.
    pose proof (relay_node_id_key (MkSendDirectMessageTx m1 s1 c1 h1 z1 ts1 r1))
      as Hr1.
    pose proof (relay_node_id_key (MkSendDirectMessageTx m2 s2 c2 h2 z2 ts2 r2))
      as Hr2.
    rewrite Heq, Hr2 in Hr1. simpl in Hr1. clear Hr2.
    assert (forall k v1 v2,
      SendDirectMessageTx_to_dict isoformat (MkSendDirectMessageTx m1 s1 c1 h1 z1 ts1 r1)
        !! k = Some v1 ->
      SendDirectMessageTx_to_dict isoformat (MkSendDirectMessageTx m2 s2 c2 h2 z2 ts2 r2)
        !! k = Some v2 -> v1 = v2) as Hk.
    { intros k v1 v2 Hl1 Hl2. rewrite Heq in Hl1. congruence. }
    simpl. 
    assert (forall (r : option string) m s c h z ts k,
      k <> "relay_node_id" ->
      SendDirectMessageTx_to_dict isoformat (MkSendDirectMessageTx m s c h z ts r) !! k
      = SendDirectMessageTx_to_dict isoformat (MkSendDirectMessageTx m s c h z ts None) !! k)
      as Hbase.
    { intros r m s c h z ts k Hne. unfold SendDirectMessageTx_to_dict. simpl.
      destruct (truthy r); [|done]. by rewrite lookup_insert_ne. }
    assert (m1 = m2) as ->.
    { assert (JStr m1 = JStr m2) as [= ->]; [|done].
      apply (Hk "message_id"); rewrite Hbase by done; reflexivity. }
    assert (s1 = s2) as ->.
    { assert (JStr s1 = JStr s2) as [= ->]; [|done].
      apply (Hk "sender_id"); rewrite Hbase by done; reflexivity. }
    assert (c1 = c2) as ->.
    { assert (JStr c1 = JStr c2) as [= ->]; [|done].
      apply (Hk "recipient_id"); rewrite Hbase by done; reflexivity. }
    assert (h1 = h2) as ->.
    { assert (JStr h1 = JStr h2) as [= ->]; [|done].
      apply (Hk "content_hash"); rewrite Hbase by done; reflexivity. }
    assert (z1 = z2) as ->.
    { assert (JInt z1 = JInt z2) as [= ->]; [|done].
      apply (Hk "payload_size"); rewrite Hbase by done; reflexivity. }
    assert (ts1 = ts2) as ->.
    { apply Hinj.
      assert (JStr (isoformat ts1) = JStr (isoformat ts2)) as [= ->]; [|done].
      apply (Hk "timestamp"); rewrite Hbase by done; reflexivity. }
    split; [done|].
    destruct r1 as [[|a1 r1]|], r2 as [[|a2 r2]|]; simpl in *; try done.
    injection Hr1 as -> ->. done.
Qed.

End ToDict.

(** The decimal rendering of the instant tells any two instants apart, so
    under it the wire form of a registration determines the registration,
    as for the registration of alice at instant 0. *)
Lemma to_dict_injective_witness :
  let t := MkRegisterUserTx "u1" "alice" "00ff" 0 100 in
  (forall a b : Z, pretty a = pretty b -> a = b)
  /\ (forall t' : RegisterUserTx,
        RegisterUserTx_to_dict pretty t = RegisterUserTx_to_dict pretty t' -> t = t').
Proof.
  intros t.
  assert (forall a b : Z, pretty a = pretty b -> a = b) as Hinj
    by (intros a b Hab; by apply (inj pretty)).
  split; [exact Hinj|].
  exact (proj1 (to_dict_injective pretty Hinj) t).
Defined.

End TransactionsProps.


(** * client.py: submission; user/manager.py *)

Module SubmissionProps.
Import BlockchainClient Transactions Submission.

(** X18. [_submit_transaction] makes a single attempt: it sends exactly one
    request, whatever the answer, and does not touch the cache. It returns
    the transaction id exactly when the answer has status 200, no ["error"]
    key and a result with a [tx_id]; any other status raises "Failed to
    submit transaction" before the body is read, and an ["error"] key with
    a message raises "RPC error" even when a result is sent along. The
    answer is the one the session sees: none, when the ledger takes longer
    than the total timeout. *)
Theorem submit_transaction_single_attempt (sg : SubmitGateway) (method : string)
    (params : gmap string JsonValue) (st : ClientState) :
  let run := _submit_transaction sg method params st in
  let r := submitted (submit_session sg) (sent (net st)) ("dchat_" +:+ method) params in
  sent (net run.2) = S (sent (net st))
  /\ _transaction_cache run.2 = _transaction_cache st
  /\ (forall id,
        run.1 = Return id <-> r = SubmitHttp 200 (SubmitJson None (Some (Some id))))
  /\ (forall status body,
        r = SubmitHttp status body -> status <> 200 ->
        run.1 = Raise (Exception ("Failed to submit transaction: " +:+ pretty status)))
  /\ (forall message res,
        r = SubmitHttp 200 (SubmitJson (Some (Some message)) res) ->
        run.1 = Raise (Exception ("RPC error: " +:+ message))).
Proof.
  intros run r. subst run. unfold _submit_transaction. cbv zeta.
  cbn [fst snd net sent _transaction_cache]. fold r.
  split; [done|]. split; [done|]. split; [|split].
  - intros id. split.
    + unfold tx_id_of_reply.
      destruct r as [msg| |status [|[err|] res]]; simpl; [discriminate|discriminate|..].
      all: case_bool_decide as Hs; simpl; try discriminate.
      * destruct err; simpl; discriminate.
      * destruct res as [[i|]|]; simpl; try discriminate.
        intros [= ->]. assert (status = 200) as -> by (by destruct (decide (status = 200))).
        done.
    + intros ->. reflexivity.
  - intros status body -> Hs. simpl. by rewrite bool_decide_eq_true_2.
  - intros message res ->. reflexivity.
Qed.

End SubmissionProps.


Module ManagerProps.
Import BlockchainClient Transactions Submission Hex UserManager.

Lemma and_then_Return {A B} (step : result A * ClientState)
    (k : A -> ClientState -> result B * ClientState) b st' :
  and_then step k = (Return b, st') ->
  exists a st1, step = (Return a, st1) /\ k a st1 = (Return b, st').
Proof.
  destruct step as [[a|e] st1]; simpl; [|discriminate]. intros Hk. by exists a, st1.
Qed.

Section Manager.

Variable fromisoformat : string -> option Z.
Variable isoformat : Z -> string.
Variable hash_content : string -> string.
Variable cfg : BlockchainConfig.
Variable sg : SubmitGateway.
Variable g : Gateway RpcReply.

Local Abbreviation wait := (wait_for_confirmation fromisoformat cfg g).

(** A wait that returns without a cached terminal receipt has fetched a
    receipt with a truthy [success], and has sent at least one request. *)
Lemma wait_returns_confirmed tx st rc st' :
  no_terminal_cached tx st ->
  wait tx st = (Return rc, st') ->
  truth (success rc) = true /\ (sent (net st) < sent (net st'))%nat.
Proof.
  intros Hc. rewrite (ClientProps.wait_for_confirmation_uncached _ _ _ _ _ Hc).
  set (d := clock (net st) + 1000 * confirmation_timeout cfg).
  destruct (ClientProps.client_confirmation_loop_trace fromisoformat cfg g tx d st)
    as (k & _ & Hk). cbv zeta in Hk.
  destruct Hk as [[_ ->]|(o & _ & Hv & ->)]; [discriminate|].
  intros [= -> <-]. apply ClientProps.client_verdict_Return in Hv as [_ Hs].
  split; [done|]. simpl. rewrite sent_nth_poll. lia.
Qed.

(** The sequence shared by the four operations of the manager: submit,
    then wait for the id the ledger gave. *)
Lemma submit_then_wait_confirmed {A} (submit : result string * ClientState)
    (build : string -> TransactionReceipt -> ClientState -> A) st resp st' :
  _transaction_cache submit.2 = _transaction_cache st ->
  sent (net submit.2) = S (sent (net st)) ->
  and_then submit
    (fun tx_id st1 =>
       and_then (wait tx_id st1)
         (fun receipt st2 => (Return (build tx_id receipt st2), st2)))
  = (Return resp, st') ->
  exists tx_id receipt,
    submit.1 = Return tx_id
    /\ resp = build tx_id receipt st'
    /\ (no_terminal_cached tx_id st ->
        truth (success receipt) = true
        /\ (sent (net st) + 2 <= sent (net st'))%nat).
Proof.
  intros Hcache Hsent Hrun.
  apply and_then_Return in Hrun as (tx_id & st1 & Hsub & Hrun).
  apply and_then_Return in Hrun as (receipt & st2 & Hwait & [= <- <-]).
  rewrite Hsub in Hcache, Hsent. simpl in Hcache, Hsent.
  exists tx_id, receipt. rewrite Hsub. split; [done|]. split; [done|].
  intros Hc.
  assert (no_terminal_cached tx_id st1) as Hc1.
  { unfold no_terminal_cached in *. by rewrite Hcache. }
  destruct (wait_returns_confirmed tx_id st1 receipt st2 Hc1 Hwait) as [Hs Hlt].
  split; [done|]. lia.
Qed.

(** X19. When [create_user] hands back a response and no terminal receipt
    was cached for the transaction id it names, the response says
    [on_chain_confirmed] (the [success] of the receipt, which is truthy, and
    [True] when it is a boolean), at least two requests were sent (the submission
    and a receipt poll), the user id is the generated one, and the two keys
    of the response decode to the generated key pair. A failed or timed-out
    registration never yields a response. *)
Theorem create_user_confirmed (uuid : string) (keypair : KeyPair) (username : string)
    (st st' : ClientState) (resp : CreateUserResponse) :
  create_user fromisoformat isoformat cfg sg g uuid keypair username st
  = (Return resp, st') ->
  (forall id, cu_tx_id resp = Some id -> no_terminal_cached id st) ->
  truth (cu_on_chain_confirmed resp) = true
  /\ (forall b, cu_on_chain_confirmed resp = PyBool b -> b = true)
  /\ (sent (net st) + 2 <= sent (net st'))%nat
  /\ cu_user_id resp = uuid
  /\ hex_to_bytes (cu_public_key resp) = Return (public_key keypair)
  /\ hex_to_bytes (cu_private_key resp) = Return (private_key keypair).
Proof.
  intros Hrun Hc. unfold create_user in Hrun.
  apply (submit_then_wait_confirmed _
           (fun tx_id receipt st2 =>
              MkCreateUserResponse uuid username (public_key_hex keypair)
                (private_key_hex keypair) (isoformat (now st2)) (success receipt)
                (Some tx_id)) st) in Hrun as (tx_id & receipt & _ & -> & Hok);
    [|done..].
  simpl in *. destruct (Hok (Hc tx_id eq_refl)) as [Hs Hsent].
  split; [done|]. split; [by intros b Hb; rewrite Hb in Hs|].
  split; [done|]. split; [done|].
  split; apply HexProps.fromhex_hex.
Qed.

(** X20. The same holds for the three other operations: a response of
    [send_direct_message], [create_channel] or [post_to_channel] for a
    transaction without cached terminal receipt says [on_chain_confirmed];
    (a truthy value: [True] when the ledger sent a boolean); a post to a
    channel is reported with the channel as its recipient. *)
Theorem message_responses_confirmed (uuid : string) (st st' : ClientState) :
  (forall sender_id recipient_id content relay resp,
      send_direct_message fromisoformat isoformat hash_content cfg sg g uuid
        sender_id recipient_id content relay st = (Return resp, st') ->
      (forall id, dr_tx_id resp = Some id -> no_terminal_cached id st) ->
      truth (dr_on_chain_confirmed resp) = true
      /\ dr_content_hash resp = hash_content content)
  /\ (forall creator_id channel_name description resp,
      create_channel fromisoformat isoformat cfg sg g uuid creator_id channel_name
        description st = (Return resp, st') ->
      (forall id, cr_tx_id resp = Some id -> no_terminal_cached id st) ->
      truth (cr_on_chain_confirmed resp) = true
      /\ cr_description resp = description)
  /\ (forall sender_id channel_id content resp,
      post_to_channel fromisoformat isoformat hash_content cfg sg g uuid
        sender_id channel_id content st = (Return resp, st') ->
      (forall id, dr_tx_id resp = Some id -> no_terminal_cached id st) ->
      truth (dr_on_chain_confirmed resp) = true
      /\ dr_recipient_id resp = channel_id).
Proof.
  split; [|split].
  - intros sender_id recipient_id content relay resp Hrun Hc.
    unfold send_direct_message in Hrun.
    apply (submit_then_wait_confirmed _
             (fun tx_id receipt st2 =>
                MkDirectMessageResponse uuid sender_id recipient_id
                  (hash_content content) (isoformat (now st2)) (success receipt)
                  (Some tx_id)) st) in Hrun as (tx_id & receipt & _ & -> & Hok);
      [|done..].
    simpl in *. by destruct (Hok (Hc tx_id eq_refl)) as [Hs _].
  - intros creator_id channel_name description resp Hrun Hc.
    unfold create_channel in Hrun.
    apply (submit_then_wait_confirmed _
             (fun tx_id receipt st2 =>
                MkCreateChannelResponse uuid channel_name creator_id
                  (isoformat (now st2)) (success receipt) description
                  (Some tx_id)) st) in Hrun as (tx_id & receipt & _ & -> & Hok);
      [|done..].
    simpl in *. by destruct (Hok (Hc tx_id eq_refl)) as [Hs _].
  - intros sender_id channel_id content resp Hrun Hc.
    unfold post_to_channel in Hrun.
    apply (submit_then_wait_confirmed _
             (fun tx_id receipt st2 =>
                MkDirectMessageResponse uuid sender_id channel_id
                  (hash_content content) (isoformat (now st2)) (success receipt)
                  (Some tx_id)) st) in Hrun as (tx_id & receipt & _ & -> & Hok);
      [|done..].
    simpl in *. by destruct (Hok (Hc tx_id eq_refl)) as [Hs _].
Qed.

(** X21. A registration that the ledger does not accept is not polled:
    when the submission raises, [create_user] raises the same exception
    after that single request, with the cache as it was. *)
Theorem rejected_registration_not_polled (uuid : string) (keypair : KeyPair)
    (username : string) (st st1 : ClientState) (e : exn) :
  register_user isoformat sg uuid username (public_key_hex keypair) st
  = (Raise e, st1) ->
  create_user fromisoformat isoformat cfg sg g uuid keypair username st
  = (Raise e, st1)
  /\ sent (net st1) = S (sent (net st))
  /\ _transaction_cache st1 = _transaction_cache st.
Proof.
  intros Hsub. unfold create_user. rewrite Hsub. simpl. split; [done|].
  unfold register_user, _submit_transaction in Hsub.
  injection Hsub as _ <-. done.
Qed.

End Manager.
End ManagerProps.

Module ManagerExamples.
Import BlockchainClient Submission Hex UserManager Scenarios ManagerScenarios.

(** X19 on a ledger that accepts the registration as ["u1"] and confirms
    it at once. *)
Lemma create_user_confirmed_witness :
  let run := create_user no_timestamps pretty local accepting
               (steady confirmed_reply 0) "id-1" alice_keys "alice" fresh in
  exists resp,
    run.1 = Return resp
    /\ truth (cu_on_chain_confirmed resp) = true
    /\ (forall b, cu_on_chain_confirmed resp = PyBool b -> b = true)
    /\ (sent (net fresh) + 2 <= sent (net run.2))%nat
    /\ cu_user_id resp = "id-1"
    /\ hex_to_bytes (cu_public_key resp) = Return (public_key alice_keys)
    /\ hex_to_bytes (cu_private_key resp) = Return (private_key alice_keys).
Proof.
  intros run.
  assert (exists resp, run = (Return resp, run.2) /\ cu_tx_id resp = Some "u1")
    as (resp & Hrun & Htx).
  { eexists. split; vm_compute; reflexivity. }
  exists resp. split; [by rewrite Hrun|].
  apply (ManagerProps.create_user_confirmed no_timestamps pretty local accepting
           (steady confirmed_reply 0) "id-1" alice_keys "alice" fresh run.2 resp Hrun).
  intros id Hid. rewrite Htx in Hid. injection Hid as <-. vm_compute. exact I.
Defined.

(** X21 on a ledger that answers 503. *)
Lemma rejected_registration_not_polled_witness :
  let e := Exception "Failed to submit transaction: 503" in
  let st1 := MkClientState ∅ (MkNet 0 1) in
  create_user no_timestamps pretty local unavailable (steady confirmed_reply 0)
    "id-1" alice_keys "alice" fresh = (Raise e, st1)
  /\ sent (net st1) = S (sent (net fresh))
  /\ _transaction_cache st1 = _transaction_cache fresh.
Proof.
  intros e st1.
  apply (ManagerProps.rejected_registration_not_polled no_timestamps pretty local
           unavailable (steady confirmed_reply 0) "id-1" alice_keys "alice" fresh st1 e).
  vm_compute. reflexivity.
Defined.

End ManagerExamples.

(** * currency_chain.py: [transfer], [stake], [claim_rewards] *)

Module CurrencyPostsProps.
Import Transactions CurrencyPosts.

(** What the three operations make of the reply to their request: a failed
    request raises, and an answer does not get past the [await]. *)
Lemma json_of_reply_eq (r : JsonReply) :
  json_of_reply r
  = match r with
    | PostFailed msg => Raise (HTTPError msg)
    | PostResponse _ _ => Raise not_awaitable
    end.
Proof. by destruct r. Qed.

Lemma json_of_reply_raises (r : JsonReply) :
  exists e, json_of_reply r = Raise e
            /\ (e = not_awaitable \/ exists msg, e = HTTPError msg).
Proof.
  rewrite json_of_reply_eq. destruct r as [msg|status_code body]; eexists; split;
    try reflexivity; eauto.
Qed.

(** X22. As shipped, [transfer], [stake] and [claim_rewards] never return a
    transaction. Each sends exactly one POST. When the request fails, the
    [httpx.HTTPError] reaches the caller, for there is no [except]; when it
    is answered, whatever the status and the body, the [await] on the
    [Response] of the synchronous client raises [TypeError], before the
    status is checked and before the keys ["from"] and ["to"] of the answer
    are read. *)
Theorem posts_never_return (pg : PostGateway) (from_user to_user user_id : string)
    (amount lock : Z) (n : Net) :
  let t := transfer pg from_user to_user amount n in
  let s := stake pg user_id amount lock n in
  let c := claim_rewards pg user_id n in
  (forall tx, t.1 <> Return tx /\ s.1 <> Return tx /\ c.1 <> Return tx)
  /\ (sent t.2 = S (sent n) /\ sent s.2 = S (sent n) /\ sent c.2 = S (sent n))
  /\ (forall e,
      t.1 = Raise e \/ s.1 = Raise e \/ c.1 = Raise e ->
      e = not_awaitable \/ exists msg, e = HTTPError msg)
  /\ ((forall path params, exists status_code body,
          posted pg (sent n) path params = PostResponse status_code body) ->
      t.1 = Raise not_awaitable /\ s.1 = Raise not_awaitable
      /\ c.1 = Raise not_awaitable)
  /\ (forall msg,
      (forall path params, posted pg (sent n) path params = PostFailed msg) ->
      t.1 = Raise (HTTPError msg) /\ s.1 = Raise (HTTPError msg)
      /\ c.1 = Raise (HTTPError msg)).
Proof.
  intros t s c. subst t s c. unfold transfer, stake, claim_rewards, post.
  cbn [fst snd sent].
  repeat match goal with
  | |- context [posted pg (sent n) ?path ?params] =>
      let r := fresh "r" in
      let Hr := fresh "Hr" in
      remember (posted pg (sent n) path params) as r eqn:Hr
  end.
  split; [|split; [done|split; [|split]]].
  - intros tx.
    destruct (json_of_reply_raises r) as (e1 & -> & _).
    destruct (json_of_reply_raises r0) as (e2 & -> & _).
    destruct (json_of_reply_raises r1) as (e3 & -> & _).
    repeat split; discriminate.
  - intros e.
    destruct (json_of_reply_raises r) as (e1 & -> & H1).
    destruct (json_of_reply_raises r0) as (e2 & -> & H2).
    destruct (json_of_reply_raises r1) as (e3 & -> & H3).
    simpl. intros [[= <-]|[[= <-]|[= <-]]]; done.
  - intros Hans. subst r r0 r1. rewrite !json_of_reply_eq.
    repeat match goal with
    | |- context [posted pg (sent n) ?path ?params] =>
        let Hp := fresh "Hp" in
        destruct (Hans path params) as (? & ? & Hp); rewrite Hp; clear Hp
    end.
    done.
  - intros msg Hans. subst r r0 r1. rewrite !json_of_reply_eq, !Hans. done.
Qed.

(** On a ledger that answers a stake with status 200 and the seven fields
    the constructor wants, the stake still raises. *)
Example stake_on_concrete_answer :
  stake (answering stake_answer) "alice" 50 3600 (MkNet 0 0)
  = (Raise not_awaitable, MkNet 0 1).
Proof. vm_compute. reflexivity. Qed.

End CurrencyPostsProps.

(** * The further properties on concrete ledgers *)

Module ExtraExamples.
Import BlockchainClient Scenarios.

(** X1 on a ledger that confirms at once: the entry of another transaction
    is not touched. *)
Lemma wait_for_confirmation_cache_frame_witness :
  let g := steady confirmed_reply 0 in
  _transaction_cache (wait_for_confirmation no_timestamps local g "u1" fresh).2
    !! "u2"
  = _transaction_cache fresh !! "u2".
Proof.
  intros g.
  apply (ClientExtras.wait_for_confirmation_cache_frame no_timestamps local g "u1"
           fresh "u2").
  discriminate.
Defined.

(** X2 on the same ledger: the second call, in the state the first one
    left, returns the receipt of the first with no request. *)
Lemma confirmed_receipt_replayed_witness :
  let g := steady confirmed_reply 0 in
  let first := wait_for_confirmation no_timestamps local g "u1" fresh in
  wait_for_confirmation no_timestamps local g "u1" first.2
  = (Return (receipt true (Some 10) None), first.2).
Proof.
  intros g first.
  apply (ClientExtras.confirmed_receipt_replayed no_timestamps local g "u1"
           fresh first.2 (receipt true (Some 10) None)).
  - vm_compute. reflexivity.
  - reflexivity.
Defined.

(** X7 on a chat chain that refuses every connection: three polls, one
    second apart, then [TimeoutError] at the deadline of 3 s. *)
Example refused_requests_time_out :
  let ledger : Gateway (RestReply ChatChain.ChatChainTransaction) :=
    steady (RequestFailed "connection refused") 0 in
  ChatChain.wait_for_confirmation ledger "tx1" 6 3000 (MkNet 0 0)
  = (Raise (TimeoutError "Transaction tx1 did not confirm within 3000ms"),
     MkNet 3000 3).
Proof. vm_compute. reflexivity. Qed.

End ExtraExamples.
